(** * COVID-19 Global Data Tracker: the cleaning and derivation pipeline

    A shallow embedding of the notebook [main.ipynb]: the loader with its
    file-not-found guard, the exploration cell, the cleaning cell (date
    conversion, country filter, zero fill, death rate, latest snapshot),
    the vaccination-percentage cell and the preparation of the global map.

    Conventions of the embedding.
    - In the table-level model a float64 cell is [NaN], a signed infinity
      or a finite value; finite values are exact rationals ([Qc]), and the
      CSV file holds finite decimals or empty cells, so rounding, overflow
      and the sign of zero are abstracted away there.  [NaN] is pandas'
      "no value".  The values of the derived columns are studied apart, in
      IEEE 754 binary64 ([Binary64]).
    - A DataFrame is the list of its rows.  DataFrames live in a heap and
      Python names hold references, so that in-place column assignment and
      the copies made by boolean indexing and [.copy()] are visible.
    - A cell of the notebook is a computation in a state-and-exception
      monad; an uncaught exception stops the run, as "Run All" does.
    - [pd.to_datetime]'s parser and the file system are parameters.
    - The imports and the styling of the figures are left out; a plotting
      call is recorded with the data it is given and is taken not to
      raise.  Of the loader's failures only the missing file is modelled,
      and the file is taken to have the columns the notebook names. *)

From Stdlib Require Import ZArith QArith Qcanon String Ascii List Bool Lia.
From Stdlib Require Import Permutation Sorted SpecFloat.
Import ListNotations.

Local Open Scope string_scope.

(** ** float64 cells *)

Inductive float : Type :=
| NaN
| Inf (negative : bool)
| Fin (q : Qc).

Definition is_zero (q : Qc) : bool := (Qnum q =? 0)%Z.
Definition is_neg (q : Qc) : bool := (Qnum q <? 0)%Z.

(** IEEE division as numpy performs it on two float64 values (the sign of
    a zero divisor is not tracked: a zero is [+0.0]). *)
Definition fdiv (x y : float) : float :=
  match x, y with
  | NaN, _ | _, NaN => NaN
  | Inf _, Inf _ => NaN
  | Inf s, Fin d => Inf (xorb s (is_neg d))
  | Fin _, Inf _ => Fin 0
  | Fin n, Fin d =>
      if is_zero d
      then (if is_zero n then NaN else Inf (is_neg n))
      else Fin (n / d)
  end.

Definition fmul (x y : float) : float :=
  match x, y with
  | NaN, _ | _, NaN => NaN
  | Inf s, Inf t => Inf (xorb s t)
  | Inf s, Fin q | Fin q, Inf s =>
      if is_zero q then NaN else Inf (xorb s (is_neg q))
  | Fin a, Fin b => Fin (a * b)
  end.

(** [Series.fillna(v)] on one cell. *)
Definition fillna (v : float) (x : float) : float :=
  match x with NaN => v | _ => x end.

(** [Series.replace([np.inf, -np.inf], np.nan)] on one cell. *)
Definition replace_inf (x : float) : float :=
  match x with Inf _ => NaN | _ => x end.

(** Strict order on the non-NaN values, used by [sort_values]. *)
Definition fltb (x y : float) : bool :=
  match x, y with
  | NaN, _ | _, NaN => false
  | Inf a, Inf b => a && negb b
  | Inf a, Fin _ => a
  | Fin _, Inf b => negb b
  | Fin p, Fin q => match (p ?= q)%Qc with Lt => true | _ => false end
  end.

(** ** Columns, rows and frames *)

(** The numeric columns of the feed: the eight the notebook names, and
    every other one, which it never touches. *)
Inductive column : Type :=
| total_cases
| new_cases
| total_deaths
| new_deaths
| total_vaccinations
| people_vaccinated
| population
| total_cases_per_million
| other_column (name : string).

Definition column_eq_dec (a b : column) : {a = b} + {a <> b}.
Proof. decide equality. apply string_dec. Defined.

(** A Timestamp; [None] is [NaT]. *)
Definition Timestamp : Type := option Z.

(** The [date] column holds text as loaded ([None]: the cell is empty) and
    datetimes once converted. *)
Inductive datecell : Type :=
| DateText (s : option string)
| Datetime (t : Timestamp).

Record Row : Type := mkRow {
  location : option string;
  iso_code : option string;
  date : datecell;
  num : column -> float;
  death_rate : option float;        (* [None]: the frame has no such column *)
  pct_vaccinated : option float
}.

Definition DataFrame : Type := list Row.

Definition set_date (d : datecell) (r : Row) : Row :=
  mkRow (location r) (iso_code r) d (num r) (death_rate r) (pct_vaccinated r).

Definition set_num (c : column) (v : float) (r : Row) : Row :=
  mkRow (location r) (iso_code r) (date r)
        (fun c' => if column_eq_dec c c' then v else num r c')
        (death_rate r) (pct_vaccinated r).

Definition set_death_rate (v : float) (r : Row) : Row :=
  mkRow (location r) (iso_code r) (date r) (num r) (Some v) (pct_vaccinated r).

Definition set_pct_vaccinated (v : float) (r : Row) : Row :=
  mkRow (location r) (iso_code r) (date r) (num r) (death_rate r) (Some v).

(** One record of the CSV file: text fields and finite decimals, each
    individually optional. *)
Record CsvRecord : Type := mkCsv {
  csv_location : option string;
  csv_iso_code : option string;
  csv_date : option string;
  csv_num : column -> option Qc
}.

Definition parse_float (x : option Qc) : float :=
  match x with Some q => Fin q | None => NaN end.

Definition parse_record (c : CsvRecord) : Row :=
  mkRow (csv_location c) (csv_iso_code c) (DateText (csv_date c))
        (fun k => parse_float (csv_num c k)) None None.

(** ** Configuration constants of the notebook *)

Definition countries : list string :=
  ["United States"; "India"; "Brazil"; "United Kingdom"; "Kenya";
   "South Africa"].

Definition key_columns : list column :=
  [total_cases; new_cases; total_deaths; new_deaths;
   total_vaccinations; people_vaccinated; population].

Definition csv_path : string := "owid-covid-data.csv".

(** ** Series operations *)

Definition string_in (l : list string) (s : string) : bool :=
  existsb (String.eqb s) l.

(** [Series.isin(values)] on one cell; a missing cell is in no list. *)
Definition isin (values : list string) (x : option string) : bool :=
  match x with Some s => string_in values s | None => false end.

(** [series == value] on one cell of an object column. *)
Definition text_eq (value : string) (x : option string) : bool :=
  match x with Some s => String.eqb s value | None => false end.

(** [series == timestamp] on one cell: [NaT] equals nothing, and neither
    does a cell that still holds text. *)
Definition date_eq (t : Timestamp) (x : datecell) : bool :=
  match x, t with
  | Datetime (Some a), Some b => (a =? b)%Z
  | _, _ => false
  end.

(** The Timestamp in a cell of a converted [date] column. *)
Definition stamp (r : Row) : Timestamp :=
  match date r with
  | Datetime t => t
  | DateText _ => None
  end.

(** Maximum of two Timestamps, skipping [NaT]. *)
Definition stamp_max (a b : Timestamp) : Timestamp :=
  match a, b with
  | None, x | x, None => x
  | Some x, Some y => Some (Z.max x y)
  end.

(** [Series.max()] of a datetime column: [NaT] when nothing is left after
    the [NaT]s are skipped, in particular on an empty column. *)
Definition series_max (l : list Timestamp) : Timestamp :=
  fold_right stamp_max None l.

Definition zip_with {A B C} (f : A -> B -> C) (l : list A) (m : list B) : list C :=
  map (fun p => f (fst p) (snd p)) (combine l m).

(** Rows of [f] at which the boolean mask holds. *)
Definition mask_rows (f : DataFrame) (mask : list bool) : DataFrame :=
  map fst (List.filter snd (combine f mask)).

(** [frame[cols]] and [frame[cols] = values], one row at a time. *)
Definition get_columns (cols : list column) (r : Row) : list float :=
  map (num r) cols.

Definition set_columns (cols : list column) (vals : list float) (r : Row) : Row :=
  fold_left (fun acc cv => set_num (fst cv) (snd cv) acc) (combine cols vals) r.

(** [sort_values(by, ascending=False)]: larger keys first, [NaN] keys
    last.  Rows with equal keys keep their order here; pandas' default
    sort leaves that order unspecified. *)
Definition goes_before (x y : float) : bool :=
  match x, y with
  | NaN, _ => false
  | _, NaN => true
  | _, _ => fltb y x
  end.

Fixpoint insert_desc (key : Row -> float) (x : Row) (l : DataFrame) : DataFrame :=
  match l with
  | [] => [x]
  | y :: l' =>
      if goes_before (key y) (key x) then y :: insert_desc key x l'
      else x :: y :: l'
  end.

Definition sort_desc (key : Row -> float) (l : DataFrame) : DataFrame :=
  fold_right (insert_desc key) [] l.

(** ** The interpreter state and its monad *)

Definition ref : Type := nat.

Inductive exn : Type :=
| FileNotFoundError
| NameError (name : string)
| KeyError (col : string)
| ValueError          (* [pd.to_datetime] on text that is no date *)
| TypeError.          (* a datetime reduction on a column that holds text *)

(** What the notebook shows: printed lines and the data handed to the
    plotting calls. *)
Inductive output : Type :=
| Line (text : string)
| Shape (nrows : nat)
| Display (what : string) (data : DataFrame)
| LatestLine (ncountries : nat) (latest : Timestamp)
| Barplot (data : DataFrame)
| Choropleth (data : DataFrame) (as_of : Timestamp).

Record State : Type := mkState {
  heap : list DataFrame;
  df : option ref;
  df_filtered : option ref;
  latest_date : option Timestamp;
  df_latest : option ref;
  df_global_latest : option ref;
  stdout : list output
}.

(** A fresh kernel: nothing bound, nothing shown. *)
Definition fresh : State := mkState [] None None None None None [].

Inductive result (A : Type) : Type :=
| Ok (a : A)
| Raised (e : exn).
Arguments Ok {A} a.
Arguments Raised {A} e.

Definition M (A : Type) : Type := State -> State * result A.

Definition ret {A} (a : A) : M A := fun s => (s, Ok a).

Definition bind {A B} (m : M A) (k : A -> M B) : M B :=
  fun s => match m s with
           | (s', Ok a) => k a s'
           | (s', Raised e) => (s', Raised e)
           end.

Definition raise {A} (e : exn) : M A := fun s => (s, Raised e).

Declare Scope monad_scope.
Delimit Scope monad_scope with monad.
Notation "x <- m ;; k" := (bind m (fun x => k))
  (at level 61, m at next level, right associativity) : monad_scope.
Notation "m ;; k" := (bind m (fun _ => k))
  (at level 61, right associativity) : monad_scope.
Local Open Scope monad_scope.

(** [try: body  except e: handler]: the handler runs in the state the body
    had reached when it raised. *)
Definition try_except {A} (body : M A) (catches : exn -> bool) (handler : M A) : M A :=
  fun s => match body s with
           | (s', Raised e) => if catches e then handler s' else (s', Raised e)
           | done => done
           end.

Definition is_file_not_found (e : exn) : bool :=
  match e with FileNotFoundError => true | _ => false end.

Definition print (o : output) : M unit :=
  fun s => (mkState (heap s) (df s) (df_filtered s) (latest_date s)
                    (df_latest s) (df_global_latest s) (stdout s ++ [o]), Ok tt).

(** Reading a Python name; an unbound one raises [NameError]. *)
Definition name {A} (var : State -> option A) (id : string) : M A :=
  fun s => match var s with
           | Some v => (s, Ok v)
           | None => (s, Raised (NameError id))
           end.

Definition assign_df (r : ref) : M unit :=
  fun s => (mkState (heap s) (Some r) (df_filtered s) (latest_date s)
                    (df_latest s) (df_global_latest s) (stdout s), Ok tt).

Definition assign_df_filtered (r : ref) : M unit :=
  fun s => (mkState (heap s) (df s) (Some r) (latest_date s)
                    (df_latest s) (df_global_latest s) (stdout s), Ok tt).

Definition assign_latest_date (t : Timestamp) : M unit :=
  fun s => (mkState (heap s) (df s) (df_filtered s) (Some t)
                    (df_latest s) (df_global_latest s) (stdout s), Ok tt).

Definition assign_df_latest (r : ref) : M unit :=
  fun s => (mkState (heap s) (df s) (df_filtered s) (latest_date s)
                    (Some r) (df_global_latest s) (stdout s), Ok tt).

Definition assign_df_global_latest (r : ref) : M unit :=
  fun s => (mkState (heap s) (df s) (df_filtered s) (latest_date s)
                    (df_latest s) (Some r) (stdout s), Ok tt).

(** *** The heap of DataFrame objects *)

Definition deref (h : list DataFrame) (r : ref) : DataFrame := nth r h [].

Fixpoint update (h : list DataFrame) (r : ref) (f : DataFrame) : list DataFrame :=
  match h, r with
  | [], _ => []
  | _ :: h', O => f :: h'
  | g :: h', S r' => g :: update h' r' f
  end.

(** A new DataFrame object. *)
Definition new (f : DataFrame) : M ref :=
  fun s => (mkState (heap s ++ [f]) (df s) (df_filtered s) (latest_date s)
                    (df_latest s) (df_global_latest s) (stdout s),
            Ok (length (heap s))).

Definition frame (r : ref) : M DataFrame :=
  fun s => (s, Ok (deref (heap s) r)).

(** The object behind [r] is changed in place: every name bound to [r]
    sees the change. *)
Definition store (r : ref) (f : DataFrame) : M unit :=
  fun s => (mkState (update (heap s) r f) (df s) (df_filtered s) (latest_date s)
                    (df_latest s) (df_global_latest s) (stdout s), Ok tt).

(** *** DataFrame operations *)

(** [frame[col]] for a source column. *)
Definition getitem {A} (get : Row -> A) (r : ref) : M (list A) :=
  f <- frame r ;; ret (map get f).

(** [frame[col]] for a derived column, which the frame may lack. *)
Fixpoint present (col : string) (cells : list (option float)) : result (list float) :=
  match cells with
  | [] => Ok []
  | None :: _ => Raised (KeyError col)
  | Some x :: rest =>
      match present col rest with
      | Ok xs => Ok (x :: xs)
      | Raised e => Raised e
      end
  end.

Definition getitem_derived (get : Row -> option float) (col : string) (r : ref)
  : M (list float) :=
  f <- frame r ;; fun s => (s, present col (map get f)).

(** [frame[col] = values], in place. *)
Definition setitem {A} (set : A -> Row -> Row) (r : ref) (values : list A) : M unit :=
  f <- frame r ;; store r (zip_with (fun row v => set v row) f values).

(** [frame[mask]]: boolean indexing builds a new object. *)
Definition getitem_mask (r : ref) (mask : list bool) : M ref :=
  f <- frame r ;; new (mask_rows f mask).

(** [frame.copy()]. *)
Definition copy (r : ref) : M ref :=
  f <- frame r ;; new f.

(** [frame.sort_values(col, ascending=False)]: a new object. *)
Definition sort_values_desc (get : Row -> option float) (col : string) (r : ref)
  : M ref :=
  _ <- getitem_derived get col r ;;
  f <- frame r ;;
  new (sort_desc (fun row => match get row with Some x => x | None => NaN end) f).

(** [series.max()] on the [date] column. *)
Fixpoint timestamps (cells : list datecell) : result (list Timestamp) :=
  match cells with
  | [] => Ok []
  | DateText _ :: _ => Raised TypeError
  | Datetime t :: rest =>
      match timestamps rest with
      | Ok ts => Ok (t :: ts)
      | Raised e => Raised e
      end
  end.

Definition max_date (cells : list datecell) : M Timestamp :=
  fun s => (s, match timestamps cells with
               | Ok ts => Ok (series_max ts)
               | Raised e => Raised e
               end).

(** ** The notebook, cell by cell *)

Section Notebook.

(** The working directory: what [pd.read_csv] finds at a path, already
    split into records; [None] when there is no such file. *)
Variable read_file : string -> option (list CsvRecord).

(** The date parser behind [pd.to_datetime]: the day a text denotes, or
    [None] when the text is no date. *)
Variable parse_date : string -> option Z.

Definition read_csv (path : string) : M ref :=
  match read_file path with
  | Some records => new (map parse_record records)
  | None => raise FileNotFoundError
  end.

Definition to_datetime1 (x : datecell) : result Timestamp :=
  match x with
  | DateText None => Ok None
  | DateText (Some s) =>
      match parse_date s with
      | Some t => Ok (Some t)
      | None => Raised ValueError
      end
  | Datetime t => Ok t
  end.

(** [pd.to_datetime(series)]: the whole series is converted, or the call
    raises and nothing is. *)
Fixpoint to_datetime_all (cells : list datecell) : result (list datecell) :=
  match cells with
  | [] => Ok []
  | x :: rest =>
      match to_datetime1 x with
      | Ok t =>
          match to_datetime_all rest with
          | Ok ts => Ok (Datetime t :: ts)
          | Raised e => Raised e
          end
      | Raised e => Raised e
      end
  end.

Definition to_datetime (cells : list datecell) : M (list datecell) :=
  fun s => (s, to_datetime_all cells).

(** Cell 1 (source lines 33-39). *)
Definition load_cell : M unit :=
  try_except
    (r <- read_csv csv_path ;;
     assign_df r ;;
     print (Line "Data loaded successfully!") ;;
     d <- name df "df" ;;
     f <- frame d ;;
     print (Shape (length f)))
    is_file_not_found
    (print (Line "Error: File not found. Please download the dataset first.") ;;
     print (Line "Download from: https://ourworldindata.org/covid-cases")).

(** Cell 2 (source lines 50-59). *)
Definition explore_cell : M unit :=
  print (Line "=== Dataset Info ===") ;;
  d <- name df "df" ;;
  f <- frame d ;;
  print (Display "info" f) ;;
  print (Line "=== First 5 Rows ===") ;;
  d <- name df "df" ;;
  f <- frame d ;;
  print (Display "head" (firstn 5 f)) ;;
  print (Line "=== Missing Values ===") ;;
  d <- name df "df" ;;
  f <- frame d ;;
  print (Display "isnull" f).

(** Cell 3 (source lines 70-89). *)
Definition cleaning_cell : M unit :=
  (* df['date'] = pd.to_datetime(df['date']) *)
  d <- name df "df" ;;
  dates <- getitem date d ;;
  stamps <- to_datetime dates ;;
  d <- name df "df" ;;
  setitem set_date d stamps ;;
  (* df_filtered = df[df['location'].isin(countries)].copy() *)
  d <- name df "df" ;;
  locs <- getitem location d ;;
  sel <- getitem_mask d (map (isin countries) locs) ;;
  c <- copy sel ;;
  assign_df_filtered c ;;
  (* df_filtered[key_columns] = df_filtered[key_columns].fillna(0) *)
  ff <- name df_filtered "df_filtered" ;;
  sub <- getitem (get_columns key_columns) ff ;;
  ff <- name df_filtered "df_filtered" ;;
  setitem (set_columns key_columns) ff (map (map (fillna (Fin 0))) sub) ;;
  (* df_filtered['death_rate'] = df_filtered['total_deaths'] / df_filtered['total_cases'] *)
  ff <- name df_filtered "df_filtered" ;;
  deaths <- getitem (fun r => num r total_deaths) ff ;;
  cases <- getitem (fun r => num r total_cases) ff ;;
  setitem set_death_rate ff (zip_with fdiv deaths cases) ;;
  (* df_filtered['death_rate'] = df_filtered['death_rate'].replace([np.inf, -np.inf], np.nan) *)
  ff <- name df_filtered "df_filtered" ;;
  rates <- getitem_derived death_rate "death_rate" ff ;;
  setitem set_death_rate ff (map replace_inf rates) ;;
  (* latest_date = df_filtered['date'].max() *)
  ff <- name df_filtered "df_filtered" ;;
  dates <- getitem date ff ;;
  latest <- max_date dates ;;
  assign_latest_date latest ;;
  (* df_latest = df_filtered[df_filtered['date'] == latest_date] *)
  ff <- name df_filtered "df_filtered" ;;
  dates <- getitem date ff ;;
  latest <- name latest_date "latest_date" ;;
  snap <- getitem_mask ff (map (date_eq latest) dates) ;;
  assign_df_latest snap ;;
  latest <- name latest_date "latest_date" ;;
  print (LatestLine (length countries) latest).

(** The per-country loop of the line plots (source lines 110-112 and its
    four repetitions): [country_data] is a fresh selection each time. *)
Fixpoint plot_countries (what : string) (names : list string) : M unit :=
  match names with
  | [] => ret tt
  | country :: rest =>
      ff <- name df_filtered "df_filtered" ;;
      locs <- getitem location ff ;;
      country_data <- getitem_mask ff (map (text_eq country) locs) ;;
      data <- frame country_data ;;
      print (Display what data) ;;
      plot_countries what rest
  end.

(** Cell 4 (source lines 109-169). *)
Definition trends_cell : M unit :=
  plot_countries "total_cases" countries ;;
  plot_countries "total_deaths" countries ;;
  plot_countries "new_cases" countries ;;
  plot_countries "death_rate" countries.

(** Cell 5 (source lines 190-209). *)
Definition vaccination_cell : M unit :=
  plot_countries "total_vaccinations" countries ;;
  (* df_latest['pct_vaccinated'] = (df_latest['people_vaccinated'] / df_latest['population']) * 100 *)
  l <- name df_latest "df_latest" ;;
  vaccinated <- getitem (fun r => num r people_vaccinated) l ;;
  l <- name df_latest "df_latest" ;;
  pop <- getitem (fun r => num r population) l ;;
  l <- name df_latest "df_latest" ;;
  setitem set_pct_vaccinated l
          (map (fun x => fmul x (Fin (Q2Qc 100))) (zip_with fdiv vaccinated pop)) ;;
  (* sns.barplot(..., data=df_latest.sort_values('pct_vaccinated', ascending=False)) *)
  l <- name df_latest "df_latest" ;;
  ranking <- sort_values_desc pct_vaccinated "pct_vaccinated" l ;;
  data <- frame ranking ;;
  print (Barplot data).

(** Cell 6 (source lines 227-237). *)
Definition choropleth_cell : M unit :=
  (* df_global_latest = df[df['date'] == latest_date] *)
  d <- name df "df" ;;
  dates <- getitem date d ;;
  latest <- name latest_date "latest_date" ;;
  g <- getitem_mask d (map (date_eq latest) dates) ;;
  assign_df_global_latest g ;;
  g <- name df_global_latest "df_global_latest" ;;
  data <- frame g ;;
  latest <- name latest_date "latest_date" ;;
  print (Choropleth data latest).

(** The notebook run top to bottom in a fresh kernel. *)
Definition notebook : M unit :=
  load_cell ;;
  explore_cell ;;
  cleaning_cell ;;
  trends_cell ;;
  vaccination_cell ;;
  choropleth_cell.

Definition run : State * result unit := notebook fresh.

(** The run cut after cell [n], to look at intermediate states. *)
Definition run_load : State * result unit := load_cell fresh.
Definition run_cleaning : State * result unit :=
  (load_cell ;; explore_cell ;; cleaning_cell) fresh.

End Notebook.

(** The DataFrame a name is bound to in a state. *)
Definition table (s : State) (var : State -> option ref) : option DataFrame :=
  match var s with
  | Some r => Some (deref (heap s) r)
  | None => None
  end.

(** ** Closed forms of the frames a complete run leaves behind

    Each is a map over a selection of the CSV records; [run_ok] below proves
    that the run computes exactly these. *)

Section ClosedForms.

Variable parse_date : string -> option Z.
Variable csv : list CsvRecord.

(** The Timestamp [pd.to_datetime] gives a record's date. *)
Definition stamp_of (c : CsvRecord) : Timestamp :=
  match csv_date c with
  | Some s => parse_date s
  | None => None
  end.

(** The record's date text, if any, is a date. *)
Definition date_parses (c : CsvRecord) : bool :=
  match csv_date c with
  | Some s => match parse_date s with Some _ => true | None => false end
  | None => true
  end.

Definition dated_row (c : CsvRecord) : Row :=
  set_date (Datetime (stamp_of c)) (parse_record c).

Definition selected (c : CsvRecord) : bool :=
  isin countries (csv_location c).

Definition fill_row (r : Row) : Row :=
  set_columns key_columns (map (fillna (Fin 0)) (get_columns key_columns r)) r.

Definition rate_row (r : Row) : Row :=
  set_death_rate (replace_inf (fdiv (num r total_deaths) (num r total_cases))) r.

Definition clean_row (c : CsvRecord) : Row :=
  rate_row (fill_row (dated_row c)).

Definition pct_row (r : Row) : Row :=
  set_pct_vaccinated
    (fmul (fdiv (num r people_vaccinated) (num r population)) (Fin (Q2Qc 100))) r.

(** The full Table as loaded, and after the date conversion. *)
Definition loaded_rows : DataFrame := map parse_record csv.
Definition table_rows : DataFrame := map dated_row csv.

(** The Filtered Table. *)
Definition filtered_rows : DataFrame := map clean_row (List.filter selected csv).

Definition latest : Timestamp :=
  series_max (map stamp_of (List.filter selected csv)).

Definition at_latest (c : CsvRecord) : bool :=
  date_eq latest (Datetime (stamp_of c)).

(** The Latest Snapshot as the cleaning cell leaves it, and after the
    vaccination cell has added [pct_vaccinated] to it. *)
Definition snapshot_rows : DataFrame :=
  map clean_row (List.filter at_latest (List.filter selected csv)).

Definition latest_rows : DataFrame :=
  map (fun c => pct_row (clean_row c))
      (List.filter at_latest (List.filter selected csv)).

Definition pct_key (r : Row) : float :=
  match pct_vaccinated r with Some x => x | None => NaN end.

(** The frame handed to the bar chart. *)
Definition ranking_rows : DataFrame := sort_desc pct_key latest_rows.

(** The Global Latest Snapshot. *)
Definition global_rows : DataFrame := map dated_row (List.filter at_latest csv).

(** The selection a per-country loop plots for one name. *)
Definition country_rows (country : string) : DataFrame :=
  List.filter (fun row => text_eq country (location row)) filtered_rows.

Definition plot_frames : list DataFrame := map country_rows countries.

Definition plots (what : string) : list output :=
  map (fun country => Display what (country_rows country)) countries.

(** The interpreter state after each cell of a complete run.  The heap
    holds, in order of creation: the Table, the selection [df[...]] and its
    copy the Filtered Table, the Latest Snapshot, the selections of the
    plotting loops, the sorted frame of the bar chart and the Global Latest
    Snapshot. *)
Definition shown_load : list output :=
  [Line "Data loaded successfully!"; Shape (length loaded_rows)].

Definition shown_explore : list output :=
  shown_load ++
  [Line "=== Dataset Info ===";
   Display "info" loaded_rows;
   Line "=== First 5 Rows ===";
   Display "head" (firstn 5 loaded_rows);
   Line "=== Missing Values ===";
   Display "isnull" loaded_rows].

Definition shown_cleaning : list output :=
  shown_explore ++ [LatestLine (length countries) latest].

Definition shown_trends : list output :=
  shown_cleaning ++ plots "total_cases" ++ plots "total_deaths"
  ++ plots "new_cases" ++ plots "death_rate".

Definition shown_vaccination : list output :=
  shown_trends ++ plots "total_vaccinations" ++ [Barplot ranking_rows].

(** Everything a complete run shows, in order. *)
Definition shown : list output :=
  shown_vaccination ++ [Choropleth global_rows latest].

Definition after_load : State :=
  mkState [loaded_rows] (Some 0%nat) None None None None shown_load.

Definition after_explore : State :=
  mkState [loaded_rows] (Some 0%nat) None None None None shown_explore.

Definition after_cleaning : State :=
  mkState [table_rows; map dated_row (List.filter selected csv);
           filtered_rows; snapshot_rows]
          (Some 0%nat) (Some 2%nat) (Some latest) (Some 3%nat) None
          shown_cleaning.

Definition after_trends : State :=
  mkState ([table_rows; map dated_row (List.filter selected csv);
            filtered_rows; snapshot_rows]
           ++ plot_frames ++ plot_frames ++ plot_frames ++ plot_frames)
          (Some 0%nat) (Some 2%nat) (Some latest) (Some 3%nat) None
          shown_trends.

Definition after_vaccination : State :=
  mkState ([table_rows; map dated_row (List.filter selected csv);
            filtered_rows; latest_rows]
           ++ plot_frames ++ plot_frames ++ plot_frames ++ plot_frames
           ++ plot_frames ++ [ranking_rows])
          (Some 0%nat) (Some 2%nat) (Some latest) (Some 3%nat) None
          shown_vaccination.

Definition final : State :=
  mkState ([table_rows; map dated_row (List.filter selected csv);
            filtered_rows; latest_rows]
           ++ plot_frames ++ plot_frames ++ plot_frames ++ plot_frames
           ++ plot_frames ++ [ranking_rows; global_rows])
          (Some 0%nat) (Some 2%nat) (Some latest) (Some 3%nat) (Some 35%nat)
          shown.

End ClosedForms.

(** The frame the run handed to the bar chart, if it drew one. *)
Fixpoint barplot_data (out : list output) : option DataFrame :=
  match out with
  | [] => None
  | Barplot data :: _ => Some data
  | _ :: rest => barplot_data rest
  end.

(** What the run shows when the file is missing, up to the exception. *)
Definition shown_without_file : list output :=
  [Line "Error: File not found. Please download the dataset first.";
   Line "Download from: https://ourworldindata.org/covid-cases";
   Line "=== Dataset Info ==="].

(** ** A concrete parser and sample files

    [iso_date] reads the feed's [YYYY-MM-DD] dates; it instantiates the
    parser parameter in the worked examples. *)

Definition digit (c : ascii) : option Z :=
  let n := Z.of_N (N_of_ascii c) in
  if ((48 <=? n) && (n <=? 57))%Z then Some (n - 48)%Z else None.

Definition number (cs : list ascii) : option Z :=
  fold_left (fun acc c =>
               match acc, digit c with
               | Some n, Some d => Some (10 * n + d)%Z
               | _, _ => None
               end) cs (Some 0%Z).

Definition leap_year (y : Z) : bool :=
  ((y mod 4 =? 0) && (negb (y mod 100 =? 0) || (y mod 400 =? 0)))%Z.

Definition days_in_month (y m : Z) : Z :=
  (if m =? 2 then (if leap_year y then 29 else 28)
   else if (m =? 4) || (m =? 6) || (m =? 9) || (m =? 11) then 30
   else 31)%Z.

Definition iso_date (s : string) : option Z :=
  match list_ascii_of_string s with
  | [y1; y2; y3; y4; d1; m1; m2; d2; a1; a2] =>
      if (Ascii.eqb d1 "-" && Ascii.eqb d2 "-")%bool then
        match number [y1; y2; y3; y4], number [m1; m2], number [a1; a2] with
        | Some y, Some m, Some d =>
            if ((1 <=? m) && (m <=? 12) && (1 <=? d) && (d <=? days_in_month y m))%Z
            then Some (y * 10000 + m * 100 + d)%Z
            else None
        | _, _, _ => None
        end
      else None
  | _ => None
  end.

(** A record with the four metrics the derivations read; every other
    numeric field is empty. *)
Definition record (loc date : string) (cases deaths vaccinated pop : option Qc)
  : CsvRecord :=
  mkCsv (Some loc) None (Some date)
        (fun k => match k with
                  | total_cases => cases
                  | total_deaths => deaths
                  | people_vaccinated => vaccinated
                  | population => pop
                  | _ => None
                  end).

Definition qc (n : Z) : option Qc := Some (Q2Qc (inject_Z n)).

(** A directory holding the CSV file with the given records, and one
    without it. *)
Definition one_file (records : list CsvRecord) : string -> option (list CsvRecord) :=
  fun path => if String.eqb path csv_path then Some records else None.

Definition no_file : string -> option (list CsvRecord) := fun _ => None.

(** Scenarios A and B of the specification, with two more rows: a country
    outside the configured set carrying a later date, and an older row. *)
Definition sample : list CsvRecord :=
  [record "Brazil" "2021-04-01" (qc 100) (qc 10) (qc 50) (qc 200);
   record "Kenya" "2021-04-01" (qc 0) (qc 0) None (qc 50);
   record "France" "2021-04-02" None None None (qc 60);
   record "Brazil" "2021-03-31" (qc 90) (qc 9) (qc 40) (qc 200)].

(** A file with no row of a configured country. *)
Definition sample_abroad : list CsvRecord :=
  [record "France" "2021-04-02" (qc 5) (qc 1) (qc 2) (qc 60)].

(** At the latest date: a row lacking [people_vaccinated] (Scenario C) and a
    row lacking [population]. *)
Definition sample_vaccination : list CsvRecord :=
  [record "United Kingdom" "2021-04-01" (qc 100) (qc 1) None (qc 60);
   record "Kenya" "2021-04-01" (qc 100) (qc 1) (qc 7) None;
   record "India" "2021-04-01" (qc 100) (qc 1) (qc 30) (qc 120)].

(** A file whose second date is no date. *)
Definition sample_bad_date : list CsvRecord :=
  [record "Brazil" "2021-04-01" (qc 100) (qc 10) (qc 50) (qc 200);
   record "Kenya" "01/04/2021" (qc 0) (qc 0) None (qc 50)].

(** A file whose configured-country rows carry no date at all. *)
Definition sample_undated : list CsvRecord :=
  [mkCsv (Some "Kenya") None None (fun _ => None);
   record "France" "2021-04-02" (qc 5) (qc 1) (qc 2) (qc 60)].

(** ** The derived columns in binary64

    The table-level model above keeps finite cells as exact rationals.
    The value of a derived column is a matter of the hardware format:
    here a cell is an IEEE 754 binary64 number ([spec_float] at precision
    53 and maximal exponent 1024, with round-to-nearest-even division and
    multiplication, overflow to infinity and signed zeros), and the
    element-wise column operations of lines 79, 82, 83 and 208 are applied
    to the cells of one row. *)

Module Binary64.

Definition float64 : Type := spec_float.

Definition prec : Z := 53.
Definition emax : Z := 1024.

Definition div : float64 -> float64 -> float64 := SFdiv prec emax.
Definition mul : float64 -> float64 -> float64 := SFmul prec emax.

(** The literals [0] of [fillna(0)] and [100]. *)
Definition zero : float64 := S754_zero false.
Definition hundred : float64 := S754_finite false 7036874417766400 (-46).

(** [Series.fillna(v)] and [Series.replace([np.inf, -np.inf], np.nan)]
    on one cell. *)
Definition fillna (v x : float64) : float64 :=
  match x with S754_nan => v | _ => x end.

Definition replace_inf (x : float64) : float64 :=
  match x with S754_infinity _ => S754_nan | _ => x end.

(** Line 82 on one row, after the fill of line 79. *)
Definition quotient (total_deaths total_cases : float64) : float64 :=
  div (fillna zero total_deaths) (fillna zero total_cases).

(** The row's [death_rate] once line 83 has run. *)
Definition death_rate (total_deaths total_cases : float64) : float64 :=
  replace_inf (quotient total_deaths total_cases).

(** Line 208 on one row of the snapshot. *)
Definition pct_vaccinated (people_vaccinated population : float64) : float64 :=
  mul (div (fillna zero people_vaccinated) (fillna zero population)) hundred.

(** Sample cells: 10, and the powers of two 2^1000 and 2^-1000. *)
Definition ten : float64 := S754_finite false 5629499534213120 (-49).
Definition two_to_1000 : float64 := S754_finite false 4503599627370496 948.
Definition two_to_minus_1000 : float64 :=
  S754_finite false 4503599627370496 (-1052).

End Binary64.

(** * Proofs *)

(** ** Lists, Series and frames *)

Lemma zip_with_map_r {A B C} (g : A -> B -> C) (h : A -> B) (l : list A) :
  zip_with g l (map h l) = map (fun x => g x (h x)) l.
Proof. unfold zip_with. induction l; simpl; congruence. Qed.

Lemma zip_with_map_both {A B C D} (g : B -> C -> D) (a : A -> B) (b : A -> C)
      (l : list A) :
  zip_with g (map a l) (map b l) = map (fun x => g (a x) (b x)) l.
Proof. unfold zip_with. induction l; simpl; congruence. Qed.

Lemma mask_rows_map (p : Row -> bool) (f : DataFrame) :
  mask_rows f (map p f) = List.filter p f.
Proof.
  unfold mask_rows. induction f as [|r f IH]; simpl; trivial.
  destruct (p r); simpl; congruence.
Qed.

Lemma mask_rows_maps {A} (g : A -> Row) (p : A -> bool) (l : list A) :
  mask_rows (map g l) (map p l) = map g (List.filter p l).
Proof.
  unfold mask_rows. induction l as [|x l IH]; simpl; trivial.
  destruct (p x); simpl; congruence.
Qed.

Lemma filter_map_comm {A B} (p : B -> bool) (g : A -> B) (l : list A) :
  List.filter p (map g l) = map g (List.filter (fun x => p (g x)) l).
Proof.
  induction l as [|x l IH]; simpl; trivial.
  destruct (p (g x)); simpl; congruence.
Qed.

Lemma present_some col {A} (g : A -> float) (l : list A) :
  present col (map (fun x => Some (g x)) l) = Ok (map g l).
Proof. induction l as [|x l IH]; simpl; trivial. now rewrite IH. Qed.

Lemma timestamps_datetime {A} (g : A -> Timestamp) (l : list A) :
  timestamps (map (fun x => Datetime (g x)) l) = Ok (map g l).
Proof. induction l as [|x l IH]; simpl; trivial. now rewrite IH. Qed.

Lemma to_datetime_all_parses parse (csv : list CsvRecord) :
  forallb (date_parses parse) csv = true ->
  to_datetime_all parse (map (fun c => date (parse_record c)) csv)
  = Ok (map (fun c => Datetime (stamp_of parse c)) csv).
Proof.
  induction csv as [|c csv IH]; cbn [map to_datetime_all forallb]; trivial.
  intro H. apply andb_prop in H as [Hc Hrest].
  rewrite (IH Hrest). unfold stamp_of, to_datetime1, date_parses in *.
  cbn [date parse_record].
  destruct (csv_date c) as [s|]; trivial.
  destruct (parse s); [reflexivity | discriminate].
Qed.

(** ** Running the primitives *)

Lemma bind_ok {A B} (m : M A) (k : A -> M B) s s' a :
  m s = (s', Ok a) -> bind m k s = k a s'.
Proof. unfold bind. now intros ->. Qed.

Lemma try_except_ok {A} (body handler : M A) catches s s' a :
  body s = (s', Ok a) -> try_except body catches handler s = (s', Ok a).
Proof. unfold try_except. now intros ->. Qed.

Lemma getitem_run {A} (get : Row -> A) r s :
  getitem get r s = (s, Ok (map get (deref (heap s) r))).
Proof. reflexivity. Qed.

Lemma getitem_derived_run get col r s :
  getitem_derived get col r s = (s, present col (map get (deref (heap s) r))).
Proof. reflexivity. Qed.

Lemma setitem_run {A} (set : A -> Row -> Row) r values s :
  setitem set r values s =
  store r (zip_with (fun row v => set v row) (deref (heap s) r) values) s.
Proof. reflexivity. Qed.

Lemma getitem_mask_run r mask s :
  getitem_mask r mask s = new (mask_rows (deref (heap s) r) mask) s.
Proof. reflexivity. Qed.

Lemma copy_run r s : copy r s = new (deref (heap s) r) s.
Proof. reflexivity. Qed.

Lemma deref_app_old h l r : (r < length h)%nat -> deref (h ++ l) r = deref h r.
Proof. intro H. unfold deref. now apply app_nth1. Qed.

Lemma deref_app_new h f l : deref (h ++ f :: l) (length h) = f.
Proof. unfold deref. apply nth_middle. Qed.

Ltac prims :=
  rewrite ?getitem_run, ?getitem_derived_run, ?setitem_run, ?getitem_mask_run,
          ?copy_run;
  cbn [ret raise name frame new store
       assign_df assign_df_filtered assign_latest_date assign_df_latest
       assign_df_global_latest print is_file_not_found
       heap df df_filtered latest_date df_latest df_global_latest stdout
       fresh update app length to_datetime max_date].

Ltac norm :=
  repeat first [ rewrite map_map | rewrite zip_with_map_r
               | rewrite zip_with_map_both | rewrite mask_rows_maps
               | rewrite mask_rows_map
               | rewrite filter_map_comm ].

(** One statement of a cell, run on a state whose heap is explicit. *)
Ltac step :=
  cbv beta;
  lazymatch goal with
  | |- bind _ _ _ = _ => unfold bind at 1; prims; cbn [deref nth]; norm
  end.

(** A per-country loop only allocates its selections and shows them. *)
Lemma plot_countries_run what names s r :
  df_filtered s = Some r -> (r < length (heap s))%nat ->
  plot_countries what names s =
  (mkState
     (heap s ++ map (fun country =>
                       List.filter (fun row => text_eq country (location row))
                                   (deref (heap s) r)) names)
     (df s) (df_filtered s) (latest_date s) (df_latest s) (df_global_latest s)
     (stdout s ++ map (fun country =>
                         Display what
                           (List.filter (fun row => text_eq country (location row))
                                        (deref (heap s) r))) names),
   Ok tt).
Proof.
  revert s. induction names as [|country rest IH]; intros s Hr Hlt.
  - simpl. rewrite !app_nil_r. now destruct s.
  - cbn [plot_countries].
    unfold bind at 1. unfold name. rewrite Hr.
    unfold bind at 1. prims.
    unfold bind at 1. prims. norm.
    unfold bind at 1. prims. rewrite deref_app_new.
    unfold bind at 1. prims.
    rewrite IH; cbn [heap df df_filtered latest_date df_latest
                          df_global_latest stdout map].
    + rewrite deref_app_old by assumption.
      rewrite <- !app_assoc, ?Hr. reflexivity.
    + assumption.
    + rewrite length_app. lia.
Qed.

Lemma sort_values_desc_run get col r s xs :
  present col (map get (deref (heap s) r)) = Ok xs ->
  sort_values_desc get col r s =
  new (sort_desc (fun row => match get row with Some x => x | None => NaN end)
                 (deref (heap s) r)) s.
Proof.
  intro H. unfold sort_values_desc.
  unfold bind at 1. rewrite getitem_derived_run, H. reflexivity.
Qed.

(** ** The cells of a complete run *)

Section CompleteRun.

Variable read_file : string -> option (list CsvRecord).
Variable parse_date : string -> option Z.
Variable csv : list CsvRecord.
Hypothesis file_present : read_file csv_path = Some csv.
Hypothesis dates_parse : forallb (date_parses parse_date) csv = true.

Lemma load_ok : load_cell read_file fresh = (after_load csv, Ok tt).
Proof.
  unfold load_cell. apply try_except_ok.
  unfold read_csv. rewrite file_present.
  repeat step. prims. reflexivity.
Qed.

Lemma explore_ok : explore_cell (after_load csv) = (after_explore csv, Ok tt).
Proof.
  unfold explore_cell, after_load. repeat step. prims. reflexivity.
Qed.

Lemma cleaning_ok :
  cleaning_cell parse_date (after_explore csv)
  = (after_cleaning parse_date csv, Ok tt).
Proof.
  unfold cleaning_cell, after_explore, loaded_rows.
  do 3 step. rewrite (to_datetime_all_parses _ _ dates_parse).
  do 17 step.
  cbn [death_rate set_death_rate]. rewrite present_some.
  do 4 step.
  change (timestamps _)
    with (timestamps (map (fun c => Datetime (stamp_of parse_date c))
                          (List.filter selected csv))).
  rewrite timestamps_datetime.
  repeat step. prims. reflexivity.
Qed.

Lemma trends_ok :
  trends_cell (after_cleaning parse_date csv)
  = (after_trends parse_date csv, Ok tt).
Proof.
  unfold trends_cell, after_cleaning.
  do 3 (unfold bind at 1;
        rewrite (plot_countries_run _ _ _ 2%nat) by (cbn; (reflexivity || lia));
        prims).
  rewrite (plot_countries_run _ _ _ 2%nat) by (cbn; (reflexivity || lia)).
  prims. reflexivity.
Qed.

Lemma vaccination_ok :
  vaccination_cell (after_trends parse_date csv)
  = (after_vaccination parse_date csv, Ok tt).
Proof.
  unfold vaccination_cell, after_trends.
  unfold bind at 1.
  rewrite (plot_countries_run _ _ _ 2%nat) by (cbn; (reflexivity || lia)).
  prims. cbn [plot_frames countries map app length].
  unfold snapshot_rows.
  do 7 step.
  unfold bind at 1.
  erewrite sort_values_desc_run
    by (cbn [heap deref nth]; rewrite map_map;
        cbn [pct_vaccinated set_pct_vaccinated]; apply present_some).
  prims. cbn [deref nth].
  repeat step. prims. reflexivity.
Qed.

Lemma choropleth_ok :
  choropleth_cell (after_vaccination parse_date csv)
  = (final parse_date csv, Ok tt).
Proof.
  unfold choropleth_cell, after_vaccination, table_rows.
  cbn [plot_frames countries map app length].
  repeat step. prims. cbn [deref nth].
  reflexivity.
Qed.

(** The notebook runs to its end, and leaves [final]. *)
Lemma run_ok : run read_file parse_date = (final parse_date csv, Ok tt).
Proof.
  unfold run, notebook.
  rewrite (bind_ok _ _ _ _ _ load_ok).
  rewrite (bind_ok _ _ _ _ _ explore_ok).
  rewrite (bind_ok _ _ _ _ _ cleaning_ok).
  rewrite (bind_ok _ _ _ _ _ trends_ok).
  rewrite (bind_ok _ _ _ _ _ vaccination_ok).
  apply choropleth_ok.
Qed.

Lemma run_load_ok : run_load read_file = (after_load csv, Ok tt).
Proof. exact load_ok. Qed.

Lemma run_cleaning_ok :
  run_cleaning read_file parse_date = (after_cleaning parse_date csv, Ok tt).
Proof.
  unfold run_cleaning.
  rewrite (bind_ok _ _ _ _ _ load_ok).
  rewrite (bind_ok _ _ _ _ _ explore_ok).
  apply cleaning_ok.
Qed.

(** The frames behind the names once the run is over. *)
Lemma final_df : table (final parse_date csv) df = Some (table_rows parse_date csv).
Proof. reflexivity. Qed.

Lemma final_df_filtered :
  table (final parse_date csv) df_filtered = Some (filtered_rows parse_date csv).
Proof. reflexivity. Qed.

Lemma final_df_latest :
  table (final parse_date csv) df_latest = Some (latest_rows parse_date csv).
Proof. reflexivity. Qed.

Lemma final_df_global_latest :
  table (final parse_date csv) df_global_latest
  = Some (global_rows parse_date csv).
Proof. reflexivity. Qed.

Lemma final_barplot :
  barplot_data (stdout (final parse_date csv))
  = Some (ranking_rows parse_date csv).
Proof. reflexivity. Qed.

Lemma cleaning_df_filtered :
  table (after_cleaning parse_date csv) df_filtered
  = Some (filtered_rows parse_date csv).
Proof. reflexivity. Qed.

Lemma cleaning_df_latest :
  table (after_cleaning parse_date csv) df_latest
  = Some (snapshot_rows parse_date csv).
Proof. reflexivity. Qed.

End CompleteRun.

(** ** Rows of the closed forms, field by field *)

Lemma is_zero_true (q : Qc) : is_zero q = true -> q = Q2Qc 0.
Proof.
  unfold is_zero. intro H. apply Z.eqb_eq in H.
  apply Qc_is_canon. unfold Qeq. simpl. rewrite H. reflexivity.
Qed.

Lemma is_zero_positive (q : Qc) : (Q2Qc 0 < q)%Qc -> is_zero q = false.
Proof.
  unfold Qclt, Qlt, is_zero. simpl. intro H.
  apply Z.eqb_neq. lia.
Qed.

Lemma fdiv_positive (d c : Qc) :
  (Q2Qc 0 < c)%Qc -> fdiv (Fin d) (Fin c) = Fin (d / c).
Proof. intro H. unfold fdiv. now rewrite (is_zero_positive _ H). Qed.

Lemma fillna_parse_float (x : option Qc) :
  exists q, fillna (Fin (Q2Qc 0)) (parse_float x) = Fin q
            /\ (x = None -> q = Q2Qc 0) /\ (forall p, x = Some p -> q = p).
Proof.
  destruct x as [p|]; simpl; eexists; repeat split; congruence.
Qed.

Section Fields.

Variable parse_date : string -> option Z.

Lemma location_clean_row c : location (clean_row parse_date c) = csv_location c.
Proof. reflexivity. Qed.

Lemma iso_code_clean_row c : iso_code (clean_row parse_date c) = csv_iso_code c.
Proof. reflexivity. Qed.

Lemma date_clean_row c :
  date (clean_row parse_date c) = Datetime (stamp_of parse_date c).
Proof. reflexivity. Qed.

Lemma num_clean_row_key c k :
  In k key_columns ->
  num (clean_row parse_date c) k = fillna (Fin (Q2Qc 0)) (parse_float (csv_num c k)).
Proof.
  unfold key_columns. simpl.
  intros [<-|[<-|[<-|[<-|[<-|[<-|[<-|[]]]]]]]]; reflexivity.
Qed.

Lemma num_clean_row_other c k :
  ~ In k key_columns ->
  num (clean_row parse_date c) k = parse_float (csv_num c k).
Proof.
  intro H. unfold clean_row, rate_row, fill_row, dated_row.
  cbn [num set_death_rate set_columns get_columns key_columns map combine
       fold_left fst snd set_num set_date parse_record].
  repeat match goal with
         | |- context [column_eq_dec ?a k] =>
             destruct (column_eq_dec a k) as [<-|_];
             [exfalso; apply H; simpl; tauto|]
         end.
  reflexivity.
Qed.

Lemma death_rate_clean_row c :
  death_rate (clean_row parse_date c)
  = Some (replace_inf (fdiv (num (clean_row parse_date c) total_deaths)
                            (num (clean_row parse_date c) total_cases))).
Proof. reflexivity. Qed.

Variable csv : list CsvRecord.

Lemma stamps_filtered :
  map stamp (filtered_rows parse_date csv)
  = map (stamp_of parse_date) (List.filter selected csv).
Proof. unfold filtered_rows. now rewrite map_map. Qed.

(** [latest] is the maximum of the Filtered Table's own date column. *)
Lemma latest_filtered :
  latest parse_date csv = series_max (map stamp (filtered_rows parse_date csv)).
Proof. now rewrite stamps_filtered. Qed.

Lemma snapshot_filtered :
  snapshot_rows parse_date csv
  = List.filter (fun r => date_eq (latest parse_date csv) (date r))
                (filtered_rows parse_date csv).
Proof. unfold filtered_rows. now rewrite filter_map_comm. Qed.

Lemma global_table :
  global_rows parse_date csv
  = List.filter (fun r => date_eq (latest parse_date csv) (date r))
                (table_rows parse_date csv).
Proof. unfold table_rows. now rewrite filter_map_comm. Qed.

Lemma latest_rows_snapshot :
  latest_rows parse_date csv = map pct_row (snapshot_rows parse_date csv).
Proof. unfold snapshot_rows. now rewrite map_map. Qed.

End Fields.

Lemma isin_In values x :
  isin values x = true <-> exists n, x = Some n /\ In n values.
Proof.
  unfold isin, string_in. destruct x as [s|].
  - rewrite existsb_exists. split.
    + intros [n [Hin Heq]]. apply String.eqb_eq in Heq. subst. eauto.
    + intros [n [Heq Hin]]. injection Heq as ->. exists n. split; trivial.
      apply String.eqb_refl.
  - split; [discriminate | intros [n [H _]]; discriminate].
Qed.

Lemma text_eq_true value x : text_eq value x = true <-> x = Some value.
Proof.
  unfold text_eq. destruct x as [s|].
  - rewrite String.eqb_eq. split; congruence.
  - split; discriminate.
Qed.

Lemma Forall2_map_same {A B C} (R : B -> C -> Prop) (f : A -> B) (g : A -> C)
      (l : list A) :
  (forall x, In x l -> R (f x) (g x)) -> Forall2 R (map f l) (map g l).
Proof.
  induction l as [|x l IH]; simpl; intro H; constructor; auto.
Qed.

Lemma filter_nil_iff {A} (p : A -> bool) (l : list A) :
  (forall x, In x l -> p x = false) -> List.filter p l = [].
Proof.
  induction l as [|x l IH]; simpl; intro H; trivial.
  rewrite (H x) by auto. auto.
Qed.

Lemma date_eq_true t u : date_eq t (Datetime u) = true -> u = t /\ t <> None.
Proof.
  unfold date_eq. destruct u as [a|], t as [b|]; try discriminate.
  intro H. apply Z.eqb_eq in H. subst. split; congruence.
Qed.

Lemma NoDup_map_filter {A K} (key : A -> K) (p : A -> bool) (l : list A) :
  NoDup (map key l) -> NoDup (map key (List.filter p l)).
Proof.
  induction l as [|x l IH]; simpl; intro H; trivial.
  inversion H as [|? ? Hnotin Hrest]; subst.
  destruct (p x); simpl; auto.
  constructor; auto.
  intro Hin. apply Hnotin. apply in_map_iff in Hin as [y [Hy Hin]].
  apply filter_In in Hin as [Hin _]. apply in_map_iff. eauto.
Qed.

Lemma insert_desc_perm key x l : Permutation (x :: l) (insert_desc key x l).
Proof.
  induction l as [|y l IH]; simpl; [reflexivity|].
  destruct (goes_before (key y) (key x)); [|reflexivity].
  rewrite perm_swap. now constructor.
Qed.

(** [sort_values] drops no row and adds none. *)
Lemma sort_desc_perm key l : Permutation l (sort_desc key l).
Proof.
  induction l as [|x l IH]; simpl; [reflexivity|].
  rewrite <- insert_desc_perm. now constructor.
Qed.

(** ** The order of [sort_values] *)

Lemma fltb_asym x y : fltb x y = true -> fltb y x = false.
Proof.
  destruct x as [|a|p], y as [|b|q]; simpl; trivial; try discriminate.
  - destruct a, b; simpl; trivial; discriminate.
  - destruct a; [reflexivity|discriminate].
  - destruct b; [discriminate|reflexivity].
  - unfold Qccompare. rewrite <- (Qcompare_antisym p q).
    destruct (p ?= q)%Q; simpl; trivial; discriminate.
Qed.

(** [fltb x y = false] is "[x] is not below [y]", which is transitive on
    the values that are not [NaN]. *)
Lemma fltb_not_below_trans x y z :
  x <> NaN -> y <> NaN -> z <> NaN ->
  fltb x y = false -> fltb y z = false -> fltb x z = false.
Proof.
  destruct x as [|a|p], y as [|b|q], z as [|c|r]; try congruence;
    intros _ _ _; simpl;
    try (destruct a); try (destruct b); try (destruct c); simpl;
    trivial; try discriminate.
  unfold Qccompare. intros Hpq Hqr.
  assert (Hge1 : (q <= p)%Q).
  { apply Qge_alt. intro E. rewrite E in Hpq. discriminate. }
  assert (Hge2 : (r <= q)%Q).
  { apply Qge_alt. intro E. rewrite E in Hqr. discriminate. }
  assert (Hge : (r <= p)%Q) by (eapply Qle_trans; eassumption).
  apply Qge_alt in Hge. destruct (p ?= r)%Q; trivial. congruence.
Qed.

Lemma goes_before_asym x y : goes_before x y = true -> goes_before y x = false.
Proof.
  destruct x as [|a|p], y as [|b|q]; cbn [goes_before]; trivial;
    try discriminate; apply fltb_asym.
Qed.

Lemma may_precede_trans x y z :
  goes_before y x = false -> goes_before z y = false ->
  goes_before z x = false.
Proof.
  destruct z as [|c|r]; [reflexivity| |];
    (destruct y as [|b|q]; [cbn [goes_before]; discriminate| |]);
    (destruct x as [|a|p]; [cbn [goes_before]; discriminate| |]);
    cbn [goes_before]; intros H1 H2;
    (eapply fltb_not_below_trans; [| | |exact H1|exact H2]; discriminate).
Qed.

Lemma insert_desc_sorted key x l :
  StronglySorted (fun a b => goes_before (key b) (key a) = false) l ->
  StronglySorted (fun a b => goes_before (key b) (key a) = false)
                 (insert_desc key x l).
Proof.
  induction 1 as [|y l Hsorted IH Hall]; simpl.
  - repeat constructor.
  - destruct (goes_before (key y) (key x)) eqn:E.
    + constructor; [exact IH|].
      apply Forall_forall. intros z Hz.
      apply (Permutation_in _ (Permutation_sym (insert_desc_perm key x l))) in Hz.
      destruct Hz as [<-|Hz].
      * now apply goes_before_asym.
      * rewrite Forall_forall in Hall. now apply Hall.
    + constructor; [now constructor|].
      constructor; [exact E|].
      rewrite Forall_forall in *. intros z Hz.
      eapply may_precede_trans; [exact E | now apply Hall].
Qed.

Lemma sort_desc_sorted key l :
  StronglySorted (fun a b => goes_before (key b) (key a) = false)
                 (sort_desc key l).
Proof.
  induction l as [|x l IH]; simpl; [constructor|].
  now apply insert_desc_sorted.
Qed.

Lemma sorted_pairs {A} (R : A -> A -> Prop) l :
  StronglySorted R l ->
  forall l1 a l2 b l3, l = (l1 ++ a :: l2 ++ b :: l3)%list -> R a b.
Proof.
  induction 1 as [|x l Hsorted IH Hall]; intros l1 a l2 b l3 E.
  - now destruct l1.
  - destruct l1 as [|x' l1]; simpl in E; injection E as -> ->.
    + rewrite Forall_forall in Hall. apply Hall.
      apply in_or_app. right. now left.
    + eapply IH. reflexivity.
Qed.

(** ** The latest date *)

Lemma series_max_upper (l : list Timestamp) (t : Z) :
  In (Some t) l -> exists m, series_max l = Some m /\ (t <= m)%Z.
Proof.
  induction l as [|a l IH]; simpl; [tauto|].
  intros [->|Hin].
  - destruct (series_max l) as [y|]; simpl; eexists; split;
      try reflexivity; lia.
  - destruct (IH Hin) as [m [-> Hle]].
    destruct a as [x|]; simpl; eexists; split; try reflexivity; lia.
Qed.

Lemma series_max_attained (l : list Timestamp) (m : Z) :
  series_max l = Some m -> In (Some m) l.
Proof.
  induction l as [|a l IH]; simpl; [discriminate|].
  destruct a as [x|]; [|intro H; right; now apply IH].
  destruct (series_max l) as [y|]; simpl.
  - intro H. injection H as H.
    destruct (Z.max_spec x y) as [[_ E]|[_ E]]; rewrite E in H; subst.
    + right. now apply IH.
    + now left.
  - intro H. now left.
Qed.

Lemma series_max_none (l : list Timestamp) :
  (forall x, In x l -> x = None) -> series_max l = None.
Proof.
  induction l as [|a l IH]; simpl; intro H; trivial.
  rewrite (H a) by auto. rewrite IH by auto. reflexivity.
Qed.

Lemma date_eq_iff t x :
  date_eq t x = true <-> exists m, t = Some m /\ x = Datetime (Some m).
Proof.
  unfold date_eq. destruct x as [text|[a|]], t as [b|]; split;
    try discriminate; try (intros [m [H1 H2]]; discriminate).
  - intro H. apply Z.eqb_eq in H. subst. eauto.
  - intros [m [H1 H2]]. injection H1 as ->. injection H2 as ->.
    apply Z.eqb_refl.
Qed.

(** Records with distinct (first, second) keys that agree on the second
    have distinct first keys. *)
Lemma NoDup_first_keys {A K1 K2} (f : A -> K1) (g : A -> K2) (k : K2)
      (l : list A) :
  NoDup (map (fun x => (f x, g x)) l) ->
  (forall x, In x l -> g x = k) ->
  NoDup (map f l).
Proof.
  induction l as [|x l IH]; simpl; intros Hnd Hk; [constructor|].
  inversion Hnd as [|? ? Hnotin Hrest]; subst.
  constructor; [|apply IH; auto].
  intro Hin. apply Hnotin.
  apply in_map_iff in Hin as [y [Hy Hin]].
  apply in_map_iff. exists y. split; [|exact Hin].
  rewrite Hy, (Hk x), (Hk y); auto.
Qed.

(** * The claims *)

Section CompleteRunClaims.

Variable read_file : string -> option (list CsvRecord).
Variable parse_date : string -> option Z.
Variable csv : list CsvRecord.
Hypothesis file_present : read_file csv_path = Some csv.
Hypothesis dates_parse : forallb (date_parses parse_date) csv = true.

Local Abbreviation s := (fst (run read_file parse_date)).

(** The rows of the full Table that the country filter keeps are the
    sources of the rows of the Filtered Table, in order. *)
Lemma kept_rows :
  List.filter (fun t => isin countries (location t)) (table_rows parse_date csv)
  = map (dated_row parse_date) (List.filter selected csv).
Proof. unfold table_rows. now rewrite filter_map_comm. Qed.

(** C6.  In a complete run, no row of the Filtered Table holds [NaN] in
    any of the seven key columns; compared with the row of the full Table
    it was selected from, a missing entry of a key column has become 0 and
    a present one is unchanged. *)
Theorem key_columns_filled :
  exists T F, table s df = Some T /\ table s df_filtered = Some F /\
    (forall r k, In r F -> In k key_columns -> num r k <> NaN) /\
    Forall2 (fun t r => forall k, In k key_columns ->
                 (num t k = NaN -> num r k = Fin (Q2Qc 0)) /\
                 (num t k <> NaN -> num r k = num t k))
            (List.filter (fun t => isin countries (location t)) T) F.
Proof.
  rewrite (run_ok _ _ _ file_present dates_parse). cbn [fst].
  rewrite final_df, final_df_filtered. do 2 eexists.
  split; [reflexivity|]. split; [reflexivity|]. split.
  - intros r k Hin Hk. apply in_map_iff in Hin as [c0 [<- _]].
    rewrite num_clean_row_key by assumption.
    destruct (fillna_parse_float (csv_num c0 k)) as [q [-> _]]. discriminate.
  - rewrite kept_rows. apply Forall2_map_same. intros c _ k Hk.
    rewrite num_clean_row_key by assumption.
    cbn [num dated_row set_date parse_record].
    destruct (csv_num c k); simpl; split; congruence.
Qed.

(** C7.  In a complete run the fill touches neither the full Table nor
    the other columns: every row of the full Table still carries, in every
    numeric column and in [location] and [iso_code], what the file had
    ([NaN] where the file had nothing), and an empty date is [NaT]; and a
    row of the Filtered Table agrees with the row of the full Table it was
    selected from on [location], [iso_code], [date] and every numeric
    column outside the seven key columns. *)
Theorem fill_frame :
  exists T F, table s df = Some T /\ table s df_filtered = Some F /\
    Forall2 (fun c t =>
               location t = csv_location c /\ iso_code t = csv_iso_code c /\
               (csv_date c = None -> date t = Datetime None) /\
               (forall k, num t k = parse_float (csv_num c k)) /\
               (forall k, csv_num c k = None -> num t k = NaN))
            csv T /\
    Forall2 (fun t r =>
               location r = location t /\ iso_code r = iso_code t /\
               date r = date t /\
               (forall k, ~ In k key_columns -> num r k = num t k) /\
               (forall k, ~ In k key_columns -> num t k = NaN -> num r k = NaN))
            (List.filter (fun t => isin countries (location t)) T) F.
Proof.
  rewrite (run_ok _ _ _ file_present dates_parse). cbn [fst].
  rewrite final_df, final_df_filtered. do 2 eexists.
  split; [reflexivity|]. split; [reflexivity|]. split.
  - unfold table_rows. rewrite <- (map_id csv) at 1.
    apply Forall2_map_same. intros c _.
    cbn [location iso_code date num dated_row set_date parse_record].
    repeat split; trivial.
    + unfold stamp_of. now intros ->.
    + now intros k ->.
  - rewrite kept_rows. apply Forall2_map_same. intros c _.
    rewrite location_clean_row, iso_code_clean_row, date_clean_row.
    cbn [location iso_code date num dated_row set_date parse_record].
    repeat split; trivial.
    + intros k Hk. now rewrite num_clean_row_other.
    + intros k Hk Hnan. now rewrite num_clean_row_other.
Qed.

(** C8.  With the file present and every date a date, the run through
    the cleaning cell ends without an exception.  The Filtered Table holds
    a row for every record whose location is a configured name and no
    other row: every row's location is exactly one of the configured
    names.  For a name that no record of the file carries, no row has that
    location and the selection
    [df_filtered[df_filtered['location'] == name]] is empty. *)
Theorem country_filter :
  snd (run_cleaning read_file parse_date) = Ok tt /\
  exists F,
    table (fst (run_cleaning read_file parse_date)) df_filtered = Some F /\
    (forall r, In r F -> exists n, location r = Some n /\ In n countries) /\
    (forall c n, In c csv -> csv_location c = Some n -> In n countries ->
                 exists r, In r F /\ location r = Some n) /\
    (forall n, (forall c, In c csv -> csv_location c <> Some n) ->
       (forall r, In r F -> location r <> Some n) /\
       List.filter (fun row => text_eq n (location row)) F = []).
Proof.
  rewrite (run_cleaning_ok _ _ _ file_present dates_parse). cbn [fst snd].
  split; [reflexivity|].
  rewrite cleaning_df_filtered. eexists. split; [reflexivity|].
  split; [|split].
  - intros r Hin. apply in_map_iff in Hin as [c [<- Hc]].
    apply filter_In in Hc as [_ Hsel]. rewrite location_clean_row.
    now apply isin_In.
  - intros c n Hc Hloc Hn. exists (clean_row parse_date c). split.
    + apply in_map. apply filter_In. split; [exact Hc|].
      apply isin_In. eauto.
    + now rewrite location_clean_row.
  - intros n Hnone.
    assert (Hrows : forall r, In r (filtered_rows parse_date csv) ->
                              location r <> Some n).
    { intros r Hin. apply in_map_iff in Hin as [c [<- Hc]].
      apply filter_In in Hc as [Hc _]. rewrite location_clean_row.
      now apply Hnone. }
    split; [exact Hrows|].
    apply filter_nil_iff. intros r Hin.
    destruct (text_eq n (location r)) eqn:E; trivial.
    apply text_eq_true in E. now apply Hrows in E.
Qed.

(** C9.  When the cleaning cell has run, [latest_date] is the maximum
    date of the Filtered Table: no row has a later date, and when it is a
    date some row has it.  The Latest Snapshot is exactly the rows of the
    Filtered Table that carry that date, in order.  If no two records of
    the file share location and date, no two rows of the snapshot share a
    location: it holds at most one row per country. *)
Theorem latest_snapshot :
  exists F L d,
    table (fst (run_cleaning read_file parse_date)) df_filtered = Some F /\
    table (fst (run_cleaning read_file parse_date)) df_latest = Some L /\
    latest_date (fst (run_cleaning read_file parse_date)) = Some d /\
    (forall r t, In r F -> date r = Datetime (Some t) ->
                 exists m, d = Some m /\ (t <= m)%Z) /\
    (forall m, d = Some m -> exists r, In r F /\ date r = Datetime (Some m)) /\
    (exists keep,
       L = List.filter keep F /\
       forall r, keep r = true <->
                 exists m, d = Some m /\ date r = Datetime (Some m)) /\
    (NoDup (map (fun c => (csv_location c, stamp_of parse_date c)) csv) ->
     NoDup (map location L)).
Proof.
  rewrite (run_cleaning_ok _ _ _ file_present dates_parse). cbn [fst].
  rewrite cleaning_df_filtered, cleaning_df_latest.
  exists (filtered_rows parse_date csv), (snapshot_rows parse_date csv),
         (latest parse_date csv).
  repeat (split; [reflexivity|]). split; [|split; [|split]].
  - intros r t Hin Hdate. apply in_map_iff in Hin as [c [<- Hc]].
    rewrite date_clean_row in Hdate. injection Hdate as Hdate.
    apply series_max_upper. rewrite <- Hdate.
    apply (in_map (stamp_of parse_date)) in Hc. exact Hc.
  - intros m Hm. apply series_max_attained in Hm.
    apply in_map_iff in Hm as [c [Hstamp Hc]].
    exists (clean_row parse_date c). split; [now apply in_map|].
    now rewrite date_clean_row, Hstamp.
  - exists (fun r => date_eq (latest parse_date csv) (date r)).
    split; [apply snapshot_filtered|]. intro r. apply date_eq_iff.
  - intro Hnd. unfold snapshot_rows. rewrite map_map.
    apply NoDup_first_keys
      with (g := stamp_of parse_date) (k := latest parse_date csv).
    + now do 2 apply NoDup_map_filter.
    + intros c Hc. apply filter_In in Hc as [_ Hc].
      now apply date_eq_true in Hc as [Hstamp _].
Qed.

(** C3, as the code has it.  In a complete run the Global Latest Snapshot
    is the rows of the full Table whose date equals [latest_date], and
    [latest_date] is the maximum date of the Filtered Table: both snapshots
    are cut at that one date, so every row of either carries it. *)
Theorem global_snapshot_date :
  exists T F L G,
    table s df = Some T /\ table s df_filtered = Some F /\
    table s df_latest = Some L /\ table s df_global_latest = Some G /\
    latest_date s = Some (series_max (map stamp F)) /\
    G = List.filter (fun r => date_eq (series_max (map stamp F)) (date r)) T /\
    (forall r, In r G -> stamp r = series_max (map stamp F)) /\
    (forall r, In r L -> stamp r = series_max (map stamp F)).
Proof.
  rewrite (run_ok _ _ _ file_present dates_parse). cbn [fst].
  rewrite final_df, final_df_filtered, final_df_latest, final_df_global_latest.
  do 4 eexists. repeat (split; [reflexivity|]).
  rewrite <- latest_filtered. split; [reflexivity|].
  split; [apply global_table|]. split.
  - intros r Hin. apply in_map_iff in Hin as [c [<- Hc]].
    apply filter_In in Hc as [_ Hc]. apply date_eq_true in Hc as [Hc _].
    exact Hc.
  - intros r Hin. apply in_map_iff in Hin as [c [<- Hc]].
    apply filter_In in Hc as [_ Hc]. apply date_eq_true in Hc as [Hc _].
    exact Hc.
Qed.

(** C4, as the code has it.  If the Filtered Table is empty when the
    snapshot is taken, the cleaning cell raises nothing: it ends normally
    with [latest_date] bound to [NaT] and an empty Latest Snapshot, and it
    prints [NaT] as the latest date. *)
Theorem empty_filtered_table :
  table (fst (run_cleaning read_file parse_date)) df_filtered = Some [] ->
  snd (run_cleaning read_file parse_date) = Ok tt /\
  latest_date (fst (run_cleaning read_file parse_date)) = Some None /\
  table (fst (run_cleaning read_file parse_date)) df_latest = Some [] /\
  In (LatestLine (length countries) None)
     (stdout (fst (run_cleaning read_file parse_date))).
Proof.
  rewrite (run_cleaning_ok _ _ _ file_present dates_parse). cbn [fst snd].
  rewrite cleaning_df_filtered, cleaning_df_latest.
  intro H. injection H as H. apply map_eq_nil in H.
  assert (Hlatest : latest parse_date csv = None)
    by (unfold latest; now rewrite H).
  split; [reflexivity|].
  split; [cbn [latest_date after_cleaning]; now rewrite Hlatest|].
  split; [unfold snapshot_rows; now rewrite H|].
  rewrite <- Hlatest. unfold after_cleaning, shown_cleaning. cbn [stdout].
  apply in_or_app. right. now left.
Qed.

(** C10, as the code has it.  The name [df] is bound to one object from
    load to the end of the run.  That object is changed in place once: each
    cell of its [date] column is replaced by the datetime [pd.to_datetime]
    gives it.  Every other source field of every row keeps its loaded
    value, and the full Table never gets a derived column: [death_rate] is
    added to the Filtered Table and [pct_vaccinated] to the Latest
    Snapshot, which are other objects. *)
Theorem table_changes :
  exists T0 T F L,
    table (fst (run_load read_file)) df = Some T0 /\
    table s df = Some T /\
    df (fst (run_load read_file)) = df s /\
    df s <> df_filtered s /\ df s <> df_latest s /\
    Forall2 (fun r0 r =>
               location r = location r0 /\ iso_code r = iso_code r0 /\
               (forall k, num r k = num r0 k) /\
               death_rate r = None /\ pct_vaccinated r = None /\
               exists t, to_datetime1 parse_date (date r0) = Ok t
                         /\ date r = Datetime t)
            T0 T /\
    table s df_filtered = Some F /\ table s df_latest = Some L /\
    (forall r, In r F -> death_rate r <> None) /\
    (forall r, In r L -> pct_vaccinated r <> None).
Proof.
  rewrite (run_ok _ _ _ file_present dates_parse).
  rewrite (run_load_ok _ _ file_present). cbn [fst].
  rewrite final_df, final_df_filtered, final_df_latest.
  do 4 eexists. split; [reflexivity|]. split; [reflexivity|].
  split; [reflexivity|]. split; [discriminate|]. split; [discriminate|].
  split; [|split; [reflexivity|split; [reflexivity|split]]].
  - unfold loaded_rows, table_rows. apply Forall2_map_same. intros c Hc.
    repeat (split; [reflexivity|]).
    exists (stamp_of parse_date c). split; [|reflexivity].
    rewrite forallb_forall in dates_parse. specialize (dates_parse c Hc).
    unfold to_datetime1, stamp_of, date_parses in *.
    cbn [date parse_record].
    destruct (csv_date c) as [d|]; trivial.
    now destruct (parse_date d).
  - intros r Hin. apply in_map_iff in Hin as [c [<- _]]. discriminate.
  - intros r Hin. apply in_map_iff in Hin as [c [<- _]]. discriminate.
Qed.

(** C2, as the code has it.  In a complete run the frame handed to the
    bar chart is the Latest Snapshot sorted by [pct_vaccinated]: it is a
    rearrangement of the snapshot, so no row is left out, in descending
    order with the [NaN] rows last.  Take a row of the full Table that the
    snapshot keeps.  If it lacks [people_vaccinated] and has a nonzero
    [population], its snapshot row has [pct_vaccinated] 0; if
    [population] is missing or 0 and [people_vaccinated] is missing or 0,
    its snapshot row has [pct_vaccinated] [NaN]. *)
Theorem vaccination_ranking :
  exists T L B d,
    table s df = Some T /\ table s df_latest = Some L /\
    barplot_data (stdout s) = Some B /\ latest_date s = Some d /\
    Permutation L B /\
    (forall l1 a l2 b l3 x y,
       B = (l1 ++ a :: l2 ++ b :: l3)%list ->
       pct_vaccinated a = Some x -> pct_vaccinated b = Some y ->
       (x = NaN -> y = NaN) /\
       (forall p q, x = Fin p -> y = Fin q -> (q <= p)%Qc) /\
       (y = Inf false -> x = Inf false) /\
       (x = Inf true -> y = Inf true \/ y = NaN)) /\
    Forall2 (fun t r =>
               location r = location t /\
               (num t people_vaccinated = NaN ->
                forall p, num t population = Fin p -> p <> Q2Qc 0 ->
                          pct_vaccinated r = Some (Fin (Q2Qc 0))) /\
               (num t population = NaN \/ num t population = Fin (Q2Qc 0) ->
                num t people_vaccinated = NaN
                \/ num t people_vaccinated = Fin (Q2Qc 0) ->
                pct_vaccinated r = Some NaN))
            (List.filter (fun t => date_eq d (date t))
               (List.filter (fun t => isin countries (location t)) T))
            L.
Proof.
  rewrite (run_ok _ _ _ file_present dates_parse). cbn [fst].
  rewrite final_df, final_df_latest, final_barplot.
  do 4 eexists. repeat (split; [reflexivity|]).
  split; [apply sort_desc_perm|]. split.
  { intros l1 a l2 b l3 x y E Ha Hb.
    pose proof (sorted_pairs _ _ (sort_desc_sorted pct_key _) _ _ _ _ _ E) as H.
    cbv beta in H. unfold pct_key in H. rewrite Ha, Hb in H.
    repeat split.
    - intros ->. destruct y; trivial; discriminate.
    - intros p q -> ->. simpl in H. unfold Qcle. apply Qge_alt.
      unfold Qccompare in H. intro Hlt. rewrite Hlt in H. discriminate.
    - intros ->. destruct x as [|[|]|p]; trivial; discriminate.
    - intros ->. destruct y as [|[|]|q]; auto; discriminate. }
  rewrite kept_rows, filter_map_comm. apply Forall2_map_same. intros c _.
  split; [reflexivity|].
  cbn [pct_vaccinated pct_row set_pct_vaccinated].
  rewrite !num_clean_row_key by (simpl; tauto).
  cbn [num dated_row set_date parse_record].
  split.
  - intros Hv p Hp Hnz.
    destruct (csv_num c people_vaccinated); [discriminate|].
    destruct (csv_num c population) as [q|]; [|discriminate].
    injection Hp as ->. cbn [parse_float fillna fdiv fmul].
    destruct (is_zero p) eqn:E; [now apply is_zero_true in E|].
    unfold Qcdiv. now rewrite !Qcmult_0_l.
  - intros Hp Hv.
    assert (Ep : fillna (Fin (Q2Qc 0)) (parse_float (csv_num c population))
                 = Fin (Q2Qc 0)).
    { destruct Hp as [Hp|Hp]; rewrite Hp; reflexivity. }
    assert (Ev : fillna (Fin (Q2Qc 0)) (parse_float (csv_num c people_vaccinated))
                 = Fin (Q2Qc 0)).
    { destruct Hv as [Hv|Hv]; rewrite Hv; reflexivity. }
    rewrite Ep, Ev. reflexivity.
Qed.

End CompleteRunClaims.

(** ** The derived columns in binary64, row by row *)

Lemma div_by_zero_replaced (x : Binary64.float64) (sign : bool) :
  Binary64.replace_inf (Binary64.div x (S754_zero sign)) = S754_nan.
Proof. destruct x as [sx|sx| |sx m e]; reflexivity. Qed.

Lemma equals_zero (x : Binary64.float64) :
  SFeqb x Binary64.zero = true -> exists sign, x = S754_zero sign.
Proof.
  destruct x as [sx|sx| |sx m e]; unfold SFeqb; simpl;
    try discriminate; try (destruct sx; discriminate).
  eauto.
Qed.

(** C1, as the code has it.  For any cells of a row, in binary64: the
    [death_rate] is never an infinity; where [total_cases] (after the fill)
    is positive and the quotient of line 82 is not an infinity,
    [death_rate] is exactly that quotient; where the quotient is an
    infinity (division by zero, overflow, or an infinite [total_deaths])
    [death_rate] is [NaN]; where [total_cases] equals 0 or was missing,
    [death_rate] is [NaN]; and a row with a finite nonzero [total_cases]
    and no deaths (0 or missing) has a [death_rate] of zero. *)
Theorem death_rate_binary64 (total_deaths total_cases : Binary64.float64) :
  (forall sign,
     Binary64.death_rate total_deaths total_cases <> S754_infinity sign) /\
  (SFltb Binary64.zero (Binary64.fillna Binary64.zero total_cases) = true ->
   (forall sign,
      Binary64.quotient total_deaths total_cases <> S754_infinity sign) ->
   Binary64.death_rate total_deaths total_cases
   = Binary64.quotient total_deaths total_cases) /\
  (forall sign,
     Binary64.quotient total_deaths total_cases = S754_infinity sign ->
     Binary64.death_rate total_deaths total_cases = S754_nan) /\
  (SFeqb (Binary64.fillna Binary64.zero total_cases) Binary64.zero = true ->
   Binary64.death_rate total_deaths total_cases = S754_nan) /\
  (total_cases = S754_nan ->
   Binary64.death_rate total_deaths total_cases = S754_nan) /\
  (forall s m e,
     total_cases = S754_finite s m e ->
     total_deaths = S754_nan \/ total_deaths = S754_zero false ->
     Binary64.death_rate total_deaths total_cases = S754_zero s).
Proof.
  unfold Binary64.death_rate. repeat split.
  - intro sign.
    destruct (Binary64.quotient total_deaths total_cases); discriminate.
  - intros _ Hfinite.
    destruct (Binary64.quotient total_deaths total_cases) as [q|q| |q m e];
      trivial.
    now destruct (Hfinite q).
  - intros sign ->. reflexivity.
  - intro Hzero. apply equals_zero in Hzero as [sign Hzero].
    unfold Binary64.quotient. rewrite Hzero. apply div_by_zero_replaced.
  - intros ->. unfold Binary64.quotient. apply div_by_zero_replaced.
  - intros s m e -> [-> | ->]; reflexivity.
Qed.

(** Scenario A of the specification in binary64: 10 deaths in 100 cases
    give the double nearest to 1/10. *)
Example scenario_a_binary64 :
  Binary64.death_rate Binary64.ten Binary64.hundred
  = S754_finite false 7205759403792794 (-56).
Proof. vm_compute. reflexivity. Qed.

(** X6.  In binary64, [pct_vaccinated] keeps the infinity of a division
    by zero: for a finite nonzero [people_vaccinated] and a [population]
    that is a zero of either sign it is the infinity whose sign is the
    exclusive or of the two signs, and for a missing [population], filled
    with [+0], the infinity of the sign of [people_vaccinated]; when both
    cells are zero or missing it is [NaN]. *)
Theorem pct_vaccinated_keeps_infinity (s : bool) (m : positive) (e : Z) :
  (forall sp, Binary64.pct_vaccinated (S754_finite s m e) (S754_zero sp)
              = S754_infinity (xorb s sp)) /\
  Binary64.pct_vaccinated (S754_finite s m e) S754_nan = S754_infinity s /\
  (forall v p,
     (v = S754_nan \/ exists sv, v = S754_zero sv) ->
     (p = S754_nan \/ exists sp, p = S754_zero sp) ->
     Binary64.pct_vaccinated v p = S754_nan).
Proof.
  repeat split.
  - intro sp. destruct s, sp; reflexivity.
  - destruct s; reflexivity.
  - intros v p [->|[sv ->]] [->|[sp ->]]; reflexivity.
Qed.

(** ** The run without the input file *)

(** C5.  When the file is missing, the loader's exception is caught and
    the two guidance lines are printed; nothing is bound, no DataFrame
    exists and the cleaning cell is never reached.  But the run does not
    end quietly: the next cell prints its header and then reads the unbound
    name [df], and that [NameError] is not caught. *)
Theorem missing_file_run read_file parse_date :
  read_file csv_path = None ->
  run read_file parse_date
  = (mkState [] None None None None None shown_without_file,
     Raised (NameError "df")).
Proof.
  intro H. unfold run, notebook, load_cell, read_csv. rewrite H. reflexivity.
Qed.

Lemma missing_file_run_witness :
  no_file csv_path = None /\
  run no_file iso_date
  = (mkState [] None None None None None shown_without_file,
     Raised (NameError "df")).
Proof.
  split; [reflexivity|]. apply (missing_file_run no_file iso_date). reflexivity.
Defined.

(** ** Worked examples *)

(** Equality of evaluated cells, up to the canonicity proofs inside [Qc]. *)
Ltac same_cells :=
  repeat first [ apply Qc_is_canon; reflexivity | reflexivity | f_equal ].

Lemma sample_present : one_file sample csv_path = Some sample.
Proof. reflexivity. Qed.

Lemma sample_parses : forallb (date_parses iso_date) sample = true.
Proof. reflexivity. Qed.

Lemma sample_abroad_present : one_file sample_abroad csv_path = Some sample_abroad.
Proof. reflexivity. Qed.

Lemma sample_abroad_parses : forallb (date_parses iso_date) sample_abroad = true.
Proof. reflexivity. Qed.

Lemma sample_vaccination_present :
  one_file sample_vaccination csv_path = Some sample_vaccination.
Proof. reflexivity. Qed.

Lemma sample_vaccination_parses :
  forallb (date_parses iso_date) sample_vaccination = true.
Proof. reflexivity. Qed.

(** Scenarios A and B of the specification: 10 deaths in 100 cases give a
    death rate of 1/10, and a row without cases has none. *)
Example scenario_death_rates :
  map death_rate (filtered_rows iso_date sample)
  = [Some (Fin (Q2Qc (1 # 10))); Some NaN; Some (Fin (Q2Qc (1 # 10)))].
Proof.
  vm_compute. same_cells.
Qed.

(** A missing population is filled with 0, and a positive count divided
    by it is infinite: unlike [death_rate], [pct_vaccinated] keeps the
    infinity. *)
Example infinite_pct_vaccinated :
  map (fun r => (location r, pct_vaccinated r))
      (ranking_rows iso_date sample_vaccination)
  = [(Some "Kenya", Some (Inf false));
     (Some "India", Some (Fin (Q2Qc 25)));
     (Some "United Kingdom", Some (Fin (Q2Qc 0)))].
Proof.
  vm_compute. same_cells.
Qed.

(** ** The claims on the sample files *)

Lemma key_columns_filled_witness :
  one_file sample csv_path = Some sample /\
  forallb (date_parses iso_date) sample = true /\
  exists F, table (fst (run (one_file sample) iso_date)) df_filtered = Some F /\
    forall r k, In r F -> In k key_columns -> num r k <> NaN.
Proof.
  split; [reflexivity|]. split; [reflexivity|].
  destruct (key_columns_filled (one_file sample) iso_date sample
              eq_refl eq_refl) as [T [F [_ [HF [H _]]]]].
  exists F. split; [exact HF | exact H].
Defined.

Lemma fill_frame_witness :
  one_file sample csv_path = Some sample /\
  forallb (date_parses iso_date) sample = true /\
  exists T, table (fst (run (one_file sample) iso_date)) df = Some T /\
    Forall2 (fun c t => forall k, csv_num c k = None -> num t k = NaN) sample T.
Proof.
  split; [reflexivity|]. split; [reflexivity|].
  destruct (fill_frame (one_file sample) iso_date sample
              eq_refl eq_refl) as [T [F [HT [_ [H _]]]]].
  exists T. split; [exact HT|].
  revert H. apply Forall2_impl. intros c t H. apply H.
Defined.

Lemma country_filter_witness :
  one_file sample csv_path = Some sample /\
  forallb (date_parses iso_date) sample = true /\
  snd (run_cleaning (one_file sample) iso_date) = Ok tt /\
  exists F,
    table (fst (run_cleaning (one_file sample) iso_date)) df_filtered = Some F /\
    (exists r, In r F /\ location r = Some "Kenya") /\
    (forall r, In r F -> location r <> Some "India").
Proof.
  split; [reflexivity|]. split; [reflexivity|].
  destruct (country_filter (one_file sample) iso_date sample
              eq_refl eq_refl) as [Hok [F [HF [_ [Hkept Hnone]]]]].
  split; [exact Hok|]. exists F. split; [exact HF|]. split.
  - apply (Hkept (record "Kenya" "2021-04-01" (qc 0) (qc 0) None (qc 50))).
    + right. left. reflexivity.
    + reflexivity.
    + simpl. tauto.
  - apply (Hnone "India"). intros c Hc Hloc.
    repeat (destruct Hc as [<-|Hc]; [discriminate Hloc|]). exact Hc.
Defined.

Lemma latest_snapshot_witness :
  one_file sample csv_path = Some sample /\
  forallb (date_parses iso_date) sample = true /\
  NoDup (map (fun c => (csv_location c, stamp_of iso_date c)) sample) /\
  exists F L d,
    table (fst (run_cleaning (one_file sample) iso_date)) df_filtered = Some F /\
    table (fst (run_cleaning (one_file sample) iso_date)) df_latest = Some L /\
    latest_date (fst (run_cleaning (one_file sample) iso_date)) = Some d /\
    (forall r t, In r F -> date r = Datetime (Some t) ->
                 exists m, d = Some m /\ (t <= m)%Z) /\
    (forall m, d = Some m -> exists r, In r F /\ date r = Datetime (Some m)) /\
    NoDup (map location L).
Proof.
  assert (Hnd : NoDup (map (fun c => (csv_location c, stamp_of iso_date c)) sample)).
  { repeat constructor; simpl; intuition discriminate. }
  split; [reflexivity|]. split; [reflexivity|]. split; [exact Hnd|].
  destruct (latest_snapshot (one_file sample) iso_date sample
              eq_refl eq_refl)
    as [F [L [d [HF [HL [Hd [Hupper [Hattained [_ H]]]]]]]]].
  exists F, L, d. split; [exact HF|]. split; [exact HL|]. split; [exact Hd|].
  split; [exact Hupper|]. split; [exact Hattained | exact (H Hnd)].
Defined.

Lemma global_snapshot_date_witness :
  one_file sample csv_path = Some sample /\
  forallb (date_parses iso_date) sample = true /\
  exists F G,
    table (fst (run (one_file sample) iso_date)) df_filtered = Some F /\
    table (fst (run (one_file sample) iso_date)) df_global_latest = Some G /\
    forall r, In r G -> stamp r = series_max (map stamp F).
Proof.
  split; [reflexivity|]. split; [reflexivity|].
  destruct (global_snapshot_date (one_file sample) iso_date sample
              eq_refl eq_refl) as [T [F [L [G [_ [HF [_ [HG [_ [_ [H _]]]]]]]]]]].
  exists F, G. split; [exact HF|]. split; [exact HG | exact H].
Defined.

Lemma empty_filtered_table_witness :
  one_file sample_abroad csv_path = Some sample_abroad /\
  forallb (date_parses iso_date) sample_abroad = true /\
  table (fst (run_cleaning (one_file sample_abroad) iso_date)) df_filtered
  = Some [] /\
  snd (run_cleaning (one_file sample_abroad) iso_date) = Ok tt /\
  latest_date (fst (run_cleaning (one_file sample_abroad) iso_date))
  = Some None /\
  table (fst (run_cleaning (one_file sample_abroad) iso_date)) df_latest
  = Some [].
Proof.
  split; [reflexivity|]. split; [reflexivity|]. split; [reflexivity|].
  destruct (empty_filtered_table (one_file sample_abroad) iso_date sample_abroad
              eq_refl eq_refl eq_refl) as [Hok [Hlatest [Hsnap _]]].
  split; [exact Hok|]. split; [exact Hlatest | exact Hsnap].
Defined.

Lemma table_changes_witness :
  one_file sample csv_path = Some sample /\
  forallb (date_parses iso_date) sample = true /\
  exists T0 T,
    table (fst (run_load (one_file sample))) df = Some T0 /\
    table (fst (run (one_file sample) iso_date)) df = Some T /\
    Forall2 (fun r0 r => forall k, num r k = num r0 k) T0 T.
Proof.
  split; [reflexivity|]. split; [reflexivity|].
  destruct (table_changes (one_file sample) iso_date sample
              eq_refl eq_refl) as [T0 [T [F [L [H0 [HT [_ [_ [_ [H _]]]]]]]]]].
  exists T0, T. split; [exact H0|]. split; [exact HT|].
  revert H. apply Forall2_impl. intros r0 r H. apply H.
Defined.

Lemma vaccination_ranking_witness :
  one_file sample_vaccination csv_path = Some sample_vaccination /\
  forallb (date_parses iso_date) sample_vaccination = true /\
  exists L B,
    table (fst (run (one_file sample_vaccination) iso_date)) df_latest = Some L /\
    barplot_data (stdout (fst (run (one_file sample_vaccination) iso_date)))
    = Some B /\
    Permutation L B /\
    forall l1 a l2 b l3 x y,
      B = (l1 ++ a :: l2 ++ b :: l3)%list ->
      pct_vaccinated a = Some x -> pct_vaccinated b = Some y ->
      (x = NaN -> y = NaN) /\
      (forall p q, x = Fin p -> y = Fin q -> (q <= p)%Qc).
Proof.
  split; [reflexivity|]. split; [reflexivity|].
  destruct (vaccination_ranking (one_file sample_vaccination) iso_date
              sample_vaccination eq_refl eq_refl)
    as [T [L [B [d [_ [HL [HB [_ [Hperm [Horder _]]]]]]]]]].
  exists L, B. split; [exact HL|]. split; [exact HB|]. split; [exact Hperm|].
  intros l1 a l2 b l3 x y E Ha Hb.
  destruct (Horder l1 a l2 b l3 x y E Ha Hb) as [Hnan [Hfin _]].
  split; assumption.
Defined.

(** ** Where the specification and the notebook part *)

(** Against C1: [total_cases] 2^-1000 is positive and [total_deaths]
    2^1000 is finite, both binary64 numbers, but their quotient overflows
    to [+inf] on line 82 and line 83 turns it into [NaN]: [death_rate] is
    not the quotient. *)
Lemma death_rate_overflow :
  valid_binary Binary64.prec Binary64.emax Binary64.two_to_1000 = true /\
  valid_binary Binary64.prec Binary64.emax Binary64.two_to_minus_1000 = true /\
  SFltb Binary64.zero Binary64.two_to_minus_1000 = true /\
  Binary64.quotient Binary64.two_to_1000 Binary64.two_to_minus_1000
  = S754_infinity false /\
  Binary64.death_rate Binary64.two_to_1000 Binary64.two_to_minus_1000
  = S754_nan /\
  Binary64.death_rate Binary64.two_to_1000 Binary64.two_to_minus_1000
  <> Binary64.quotient Binary64.two_to_1000 Binary64.two_to_minus_1000.
Proof.
  assert (Hq : Binary64.quotient Binary64.two_to_1000 Binary64.two_to_minus_1000
               = S754_infinity false) by (vm_compute; reflexivity).
  repeat split; try (vm_compute; reflexivity); try exact Hq.
  unfold Binary64.death_rate. rewrite Hq. discriminate.
Qed.

(** Against C2: the United Kingdom record of [sample_vaccination] has no
    [people_vaccinated], yet its row is in the frame handed to the bar
    chart, with [pct_vaccinated] 0. *)
Lemma zero_filled_row_in_ranking :
  exists c B r,
    In c sample_vaccination /\ csv_num c people_vaccinated = None /\
    barplot_data (stdout (fst (run (one_file sample_vaccination) iso_date)))
    = Some B /\
    In r B /\ location r = csv_location c /\
    pct_vaccinated r = Some (Fin (Q2Qc 0)).
Proof.
  exists (record "United Kingdom" "2021-04-01" (qc 100) (qc 1) None (qc 60)).
  exists (ranking_rows iso_date sample_vaccination).
  exists (pct_row (clean_row iso_date
            (record "United Kingdom" "2021-04-01" (qc 100) (qc 1) None (qc 60)))).
  split; [left; reflexivity|]. split; [reflexivity|]. split.
  - rewrite (run_ok _ _ _ sample_vaccination_present sample_vaccination_parses).
    apply final_barplot.
  - split; [|split; [reflexivity | vm_compute; same_cells]].
    apply (Permutation_in _ (sort_desc_perm _ _)).
    unfold latest_rows.
    apply (in_map (fun c => pct_row (clean_row iso_date c))).
    apply filter_In. split; [|reflexivity].
    apply filter_In. split; [left; reflexivity | reflexivity].
Qed.

(** Against C3: in [sample] the full Table's latest date is 2021-04-02
    (a row of France), but the Global Latest Snapshot is cut at
    2021-04-01, the latest date of the configured countries. *)
Lemma global_snapshot_older_than_table :
  exists T G r,
    table (fst (run (one_file sample) iso_date)) df = Some T /\
    table (fst (run (one_file sample) iso_date)) df_global_latest = Some G /\
    In r G /\
    stamp r = Some 20210401%Z /\
    series_max (map stamp T) = Some 20210402%Z /\
    stamp r <> series_max (map stamp T).
Proof.
  exists (table_rows iso_date sample), (global_rows iso_date sample).
  exists (dated_row iso_date
            (record "Brazil" "2021-04-01" (qc 100) (qc 10) (qc 50) (qc 200))).
  rewrite (run_ok _ _ _ sample_present sample_parses). cbn [fst].
  split; [apply final_df|]. split; [apply final_df_global_latest|].
  split; [|split; [reflexivity | split; [reflexivity | discriminate]]].
  unfold global_rows. apply in_map. apply filter_In.
  split; [left; reflexivity | reflexivity].
Qed.

(** Against C4: [sample_abroad] has no row of a configured country; the
    Filtered Table is empty, and the cleaning cell raises nothing and binds
    [latest_date] to [NaT]. *)
Lemma empty_filtered_table_raises_nothing :
  table (fst (run_cleaning (one_file sample_abroad) iso_date)) df_filtered
  = Some [] /\
  snd (run_cleaning (one_file sample_abroad) iso_date) = Ok tt /\
  latest_date (fst (run_cleaning (one_file sample_abroad) iso_date)) = Some None /\
  ~ (exists e, snd (run_cleaning (one_file sample_abroad) iso_date) = Raised e).
Proof.
  rewrite (run_cleaning_ok _ _ _ sample_abroad_present sample_abroad_parses).
  cbn [fst snd].
  split; [reflexivity|]. split; [reflexivity|]. split; [reflexivity|].
  intros [e H]. discriminate H.
Qed.

(** Against C10: between load and the end of the run the [date] column
    of the object bound to [df] has changed from text to datetimes. *)
Lemma date_column_overwritten :
  exists T0 T,
    table (fst (run_load (one_file sample))) df = Some T0 /\
    table (fst (run (one_file sample) iso_date)) df = Some T /\
    df (fst (run_load (one_file sample))) = df (fst (run (one_file sample) iso_date)) /\
    map date T0
    = [DateText (Some "2021-04-01"); DateText (Some "2021-04-01");
       DateText (Some "2021-04-02"); DateText (Some "2021-03-31")] /\
    map date T
    = [Datetime (Some 20210401%Z); Datetime (Some 20210401%Z);
       Datetime (Some 20210402%Z); Datetime (Some 20210331%Z)] /\
    map date T <> map date T0.
Proof.
  exists (loaded_rows sample), (table_rows iso_date sample).
  rewrite (run_ok _ _ _ sample_present sample_parses).
  rewrite (run_load_ok _ _ sample_present). cbn [fst].
  split; [reflexivity|]. split; [apply final_df|].
  split; [reflexivity|]. split; [reflexivity|]. split; [reflexivity|].
  discriminate.
Qed.

(** * Further properties of the notebook *)

(** ** A date that does not parse *)

Lemma to_datetime_all_fails parse (csv : list CsvRecord) :
  forallb (date_parses parse) csv = false ->
  to_datetime_all parse (map (fun c => date (parse_record c)) csv)
  = Raised ValueError.
Proof.
  induction csv as [|c csv IH]; cbn [map to_datetime_all forallb];
    [discriminate|].
  intro H. unfold to_datetime1, date_parses in *.
  change (date (parse_record c)) with (DateText (csv_date c)).
  destruct (csv_date c) as [d|].
  - destruct (parse d).
    + now rewrite (IH H).
    + reflexivity.
  - now rewrite (IH H).
Qed.

Lemma bind_raised {A B} (m : M A) (k : A -> M B) s s' e :
  m s = (s', Raised e) -> bind m k s = (s', Raised e).
Proof. unfold bind. now intros ->. Qed.

Lemma run_bad_date read_file parse_date csv :
  read_file csv_path = Some csv ->
  forallb (date_parses parse_date) csv = false ->
  run read_file parse_date = (after_explore csv, Raised ValueError).
Proof.
  intros Hfile Hbad. unfold run, notebook.
  rewrite (bind_ok _ _ _ _ _ (load_ok _ _ Hfile)).
  rewrite (bind_ok _ _ _ _ _ (explore_ok _)).
  apply bind_raised.
  unfold cleaning_cell, after_explore, loaded_rows.
  do 2 step. unfold bind at 1. prims. norm.
  now rewrite (to_datetime_all_fails _ _ Hbad).
Qed.

(** X1.  If the file is there but one of its dates is no date, the run
    stops in the cleaning cell with the [ValueError] of [pd.to_datetime].
    The load and exploration output has been shown; [df] is still bound to
    the Table as loaded, with every date still text (no cell was
    converted); no other name is bound and no other frame exists. *)
Theorem unparseable_date_run read_file parse_date csv :
  read_file csv_path = Some csv ->
  forallb (date_parses parse_date) csv = false ->
  run read_file parse_date
  = (mkState [map parse_record csv] (Some 0%nat) None None None None
             (shown_explore csv),
     Raised ValueError).
Proof. exact (run_bad_date read_file parse_date csv). Qed.

Lemma unparseable_date_run_witness :
  one_file sample_bad_date csv_path = Some sample_bad_date /\
  forallb (date_parses iso_date) sample_bad_date = false /\
  snd (run (one_file sample_bad_date) iso_date) = Raised ValueError /\
  option_map (map date)
    (table (fst (run (one_file sample_bad_date) iso_date)) df)
  = Some [DateText (Some "2021-04-01"); DateText (Some "01/04/2021")].
Proof.
  split; [reflexivity|]. split; [reflexivity|].
  rewrite (unparseable_date_run (one_file sample_bad_date) iso_date
             sample_bad_date eq_refl eq_refl).
  split; reflexivity.
Defined.

(** ** Selections by country *)

Lemma filter_comm {A} (p q : A -> bool) (l : list A) :
  List.filter p (List.filter q l) = List.filter q (List.filter p l).
Proof.
  induction l as [|x l IH]; simpl; trivial.
  destruct (p x) eqn:Hp, (q x) eqn:Hq; simpl; rewrite ?Hp, ?Hq, IH; reflexivity.
Qed.

Lemma selections_skip {A} (key : A -> option string) (x : A) (l : list A)
      (n0 : string) (names : list string) :
  key x = Some n0 -> ~ In n0 names ->
  map (fun n => List.filter (fun y => text_eq n (key y)) (x :: l)) names
  = map (fun n => List.filter (fun y => text_eq n (key y)) l) names.
Proof.
  intros Hkey Hnotin. apply map_ext_in. intros n Hn. simpl.
  destruct (text_eq n (key x)) eqn:E; trivial.
  apply text_eq_true in E. congruence.
Qed.

Lemma selections_cons {A} (key : A -> option string) (x : A) (l : list A)
      (n0 : string) (names : list string) :
  NoDup names -> key x = Some n0 -> In n0 names ->
  Permutation
    (concat (map (fun n => List.filter (fun y => text_eq n (key y)) (x :: l)) names))
    (x :: concat (map (fun n => List.filter (fun y => text_eq n (key y)) l) names)).
Proof.
  intros Hnd Hkey. induction names as [|n names IH]; intro Hin; [destruct Hin|].
  inversion Hnd as [|? ? Hnotin Hrest]; subst.
  cbn [map concat].
  change (List.filter (fun y => text_eq n (key y)) (x :: l))
    with (if text_eq n (key x)
          then x :: List.filter (fun y => text_eq n (key y)) l
          else List.filter (fun y => text_eq n (key y)) l).
  destruct (text_eq n (key x)) eqn:E.
  - apply text_eq_true in E.
    assert (n0 = n) by congruence. subst n0.
    now rewrite (selections_skip key x l n names Hkey Hnotin).
  - destruct Hin as [->|Hin].
    + rewrite Hkey in E. unfold text_eq in E. now rewrite String.eqb_refl in E.
    + rewrite (IH Hrest Hin). apply Permutation_sym, Permutation_middle.
Qed.

(** Selecting by each of distinct names splits a list whose keys are all
    among the names. *)
Lemma selections_partition {A} (key : A -> option string) (names : list string)
      (l : list A) :
  NoDup names ->
  (forall x, In x l -> exists n, key x = Some n /\ In n names) ->
  Permutation
    (concat (map (fun n => List.filter (fun y => text_eq n (key y)) l) names)) l.
Proof.
  intro Hnd. induction l as [|x l IH]; intro Hkeys.
  - replace (concat (map (fun n => List.filter (fun y => text_eq n (key y)) [])
                          names)) with (@nil A); [constructor|].
    clear. induction names as [|n names IHn]; simpl; trivial.
  - destruct (Hkeys x (or_introl eq_refl)) as [n0 [Hkey Hin]].
    rewrite (selections_cons key x l n0 names Hnd Hkey Hin).
    constructor. apply IH. intros y Hy. apply Hkeys. now right.
Qed.

Lemma countries_distinct : NoDup countries.
Proof. unfold countries. repeat constructor; simpl; intuition discriminate. Qed.

(** ** Quotients of counts *)

Lemma positive_nonzero (c : Qc) : (Q2Qc 0 < c)%Qc -> c <> Q2Qc 0.
Proof. intros H ->. revert H. apply Qlt_irrefl. Qed.

Lemma inverse_nonnegative (c : Qc) : (Q2Qc 0 < c)%Qc -> (Q2Qc 0 <= / c)%Qc.
Proof.
  intro H. unfold Qcle, Qcinv, Q2Qc. cbn [this].
  rewrite !Qred_correct. apply Qinv_le_0_compat. now apply Qlt_le_weak.
Qed.

(** A part of a positive whole, divided by the whole, lies in [0, 1]. *)
Lemma quotient_range (d c : Qc) :
  (Q2Qc 0 < c)%Qc -> (Q2Qc 0 <= d)%Qc -> (d <= c)%Qc ->
  (Q2Qc 0 <= d / c)%Qc /\ (d / c <= Q2Qc 1)%Qc.
Proof.
  intros Hc Hd Hdc. unfold Qcdiv.
  pose proof (inverse_nonnegative c Hc) as Hinv. split.
  - rewrite <- (Qcmult_0_l (/ c)). now apply Qcmult_le_compat_r.
  - rewrite <- (Qcmult_inv_r c) by now apply positive_nonzero.
    now apply Qcmult_le_compat_r.
Qed.

Lemma percent_range (q : Qc) :
  (Q2Qc 0 <= q)%Qc -> (q <= Q2Qc 1)%Qc ->
  (Q2Qc 0 <= q * Q2Qc 100)%Qc /\ (q * Q2Qc 100 <= Q2Qc 100)%Qc.
Proof.
  intros H0 H1.
  assert (H100 : (Q2Qc 0 <= Q2Qc 100)%Qc) by (unfold Qcle, Qle; simpl; lia).
  split.
  - rewrite <- (Qcmult_0_l (Q2Qc 100)). now apply Qcmult_le_compat_r.
  - rewrite <- (Qcmult_1_l (Q2Qc 100)) at 2. now apply Qcmult_le_compat_r.
Qed.

Section FurtherProperties.

Variable read_file : string -> option (list CsvRecord).
Variable parse_date : string -> option Z.
Variable csv : list CsvRecord.
Hypothesis file_present : read_file csv_path = Some csv.
Hypothesis dates_parse : forallb (date_parses parse_date) csv = true.

Local Abbreviation s := (fst (run read_file parse_date)).

(** X2.  In a complete run [latest_date] bounds every date of the
    Filtered Table from above, and when it is a date (not [NaT]) some row
    of the Latest Snapshot carries it: the snapshot is then not empty. *)
Theorem latest_date_bounds :
  exists F L d,
    table s df_filtered = Some F /\ table s df_latest = Some L /\
    latest_date s = Some d /\
    (forall r t, In r F -> stamp r = Some t ->
                 exists m, d = Some m /\ (t <= m)%Z) /\
    (forall m, d = Some m -> exists r, In r L /\ stamp r = Some m).
Proof.
  rewrite (run_ok _ _ _ file_present dates_parse). cbn [fst].
  rewrite final_df_filtered, final_df_latest.
  do 3 eexists. repeat (split; [reflexivity|]). split.
  - intros r t Hin Ht. apply in_map_iff in Hin as [c [<- Hc]].
    apply series_max_upper. rewrite <- Ht.
    apply (in_map (stamp_of parse_date)) in Hc. exact Hc.
  - intros m Hm. pose proof Hm as Hin.
    apply series_max_attained in Hin.
    apply in_map_iff in Hin as [c [Hstamp Hc]].
    exists (pct_row (clean_row parse_date c)). split; [|exact Hstamp].
    unfold latest_rows.
    apply (in_map (fun c => pct_row (clean_row parse_date c))).
    apply filter_In. split; [exact Hc|].
    unfold at_latest. rewrite Hstamp, Hm. unfold date_eq. apply Z.eqb_refl.
Qed.

(** X3.  A row without a date is never in a snapshot: every row of the
    Latest Snapshot, and of the Global Latest Snapshot once it is built,
    carries a date.  When no row of the Filtered Table has a date, the
    cleaning cell binds [latest_date] to [NaT] and the Latest Snapshot is
    empty. *)
Theorem snapshots_skip_missing_dates :
  exists F L,
    table (fst (run_cleaning read_file parse_date)) df_filtered = Some F /\
    table (fst (run_cleaning read_file parse_date)) df_latest = Some L /\
    (forall r, In r L -> exists t, date r = Datetime (Some t)) /\
    (forall G, table s df_global_latest = Some G ->
               forall r, In r G -> exists t, date r = Datetime (Some t)) /\
    ((forall r, In r F -> date r = Datetime None) ->
     latest_date (fst (run_cleaning read_file parse_date)) = Some None /\
     L = []).
Proof.
  rewrite (run_ok _ _ _ file_present dates_parse).
  rewrite (run_cleaning_ok _ _ _ file_present dates_parse). cbn [fst].
  rewrite cleaning_df_filtered, cleaning_df_latest, final_df_global_latest.
  do 2 eexists. repeat (split; [reflexivity|]). split; [|split].
  - intros r Hin. apply in_map_iff in Hin as [c [<- Hc]].
    apply filter_In in Hc as [_ Hc]. unfold at_latest in Hc.
    apply date_eq_iff in Hc as [m [_ Hdate]]. exists m.
    now rewrite date_clean_row.
  - intros G HG r Hin. injection HG as <-.
    apply in_map_iff in Hin as [c [<- Hc]].
    apply filter_In in Hc as [_ Hc]. unfold at_latest in Hc.
    apply date_eq_iff in Hc as [m [_ Hdate]]. exists m. exact Hdate.
  - intro Hnone.
    assert (Hlatest : latest parse_date csv = None).
    { unfold latest. apply series_max_none. intros x Hx.
      apply in_map_iff in Hx as [c [<- Hc]].
      assert (H : date (clean_row parse_date c) = Datetime None)
        by (apply Hnone; now apply in_map).
      rewrite date_clean_row in H. now injection H. }
    split; [cbn [latest_date after_cleaning]; now rewrite Hlatest|].
    unfold snapshot_rows. rewrite filter_nil_iff; [reflexivity|].
    intros c _. unfold at_latest. rewrite Hlatest.
    unfold date_eq. now destruct (stamp_of parse_date c).
Qed.

(** X5.  In a complete run, a row of the Filtered Table whose deaths are
    between 0 and its positive case count has a [death_rate] between 0 and
    1. *)
Theorem death_rate_range :
  exists F, table s df_filtered = Some F /\
    forall r c d, In r F ->
      num r total_cases = Fin c -> num r total_deaths = Fin d ->
      (Q2Qc 0 < c)%Qc -> (Q2Qc 0 <= d)%Qc -> (d <= c)%Qc ->
      exists q, death_rate r = Some (Fin q)
                /\ (Q2Qc 0 <= q)%Qc /\ (q <= Q2Qc 1)%Qc.
Proof.
  rewrite (run_ok _ _ _ file_present dates_parse). cbn [fst].
  rewrite final_df_filtered. eexists. split; [reflexivity|].
  intros r c d Hin Hc Hd Hpos H0 Hle.
  apply in_map_iff in Hin as [c0 [<- _]].
  rewrite death_rate_clean_row, Hc, Hd, (fdiv_positive _ _ Hpos).
  exists (d / c)%Qc. split; [reflexivity|]. now apply quotient_range.
Qed.

(** X7.  In a complete run, a row of the Latest Snapshot whose
    [people_vaccinated] is between 0 and its positive [population] has a
    [pct_vaccinated] between 0 and 100. *)
Theorem pct_vaccinated_range :
  exists L, table s df_latest = Some L /\
    forall r v p, In r L ->
      num r people_vaccinated = Fin v -> num r population = Fin p ->
      (Q2Qc 0 < p)%Qc -> (Q2Qc 0 <= v)%Qc -> (v <= p)%Qc ->
      exists q, pct_vaccinated r = Some (Fin q)
                /\ (Q2Qc 0 <= q)%Qc /\ (q <= Q2Qc 100)%Qc.
Proof.
  rewrite (run_ok _ _ _ file_present dates_parse). cbn [fst].
  rewrite final_df_latest. eexists. split; [reflexivity|].
  intros r v p Hin Hv Hp Hpos H0 Hle.
  apply in_map_iff in Hin as [c0 [<- _]].
  cbn [pct_vaccinated num pct_row set_pct_vaccinated] in *.
  rewrite Hv, Hp, (fdiv_positive _ _ Hpos). cbn [fmul].
  eexists. split; [reflexivity|].
  apply percent_range; now apply quotient_range.
Qed.


(** X8.  In a complete run the frame handed to the bar chart is in
    descending order of [pct_vaccinated] with the [NaN] rows last: of two
    rows, the later one is [NaN] if the earlier is, is not larger than the
    earlier when both are finite, and [+inf] comes only before and [-inf]
    only after the finite values. *)
Theorem ranking_order :
  exists B, barplot_data (stdout s) = Some B /\
    forall l1 a l2 b l3 x y,
      B = (l1 ++ a :: l2 ++ b :: l3)%list ->
      pct_vaccinated a = Some x -> pct_vaccinated b = Some y ->
      (x = NaN -> y = NaN) /\
      (forall p q, x = Fin p -> y = Fin q -> (q <= p)%Qc) /\
      (y = Inf false -> x = Inf false) /\
      (x = Inf true -> y = Inf true \/ y = NaN).
Proof.
  rewrite (run_ok _ _ _ file_present dates_parse). cbn [fst].
  rewrite final_barplot. eexists. split; [reflexivity|].
  intros l1 a l2 b l3 x y E Ha Hb.
  pose proof (sorted_pairs _ _ (sort_desc_sorted pct_key _) _ _ _ _ _ E) as H.
  cbv beta in H. unfold pct_key in H. rewrite Ha, Hb in H.
  repeat split.
  - intros ->. destruct y; trivial; discriminate.
  - intros p q -> ->. simpl in H. unfold Qcle. apply Qge_alt.
    unfold Qccompare in H. intro Hlt. rewrite Hlt in H. discriminate.
  - intros ->. destruct x as [|[|]|p]; trivial; discriminate.
  - intros ->. destruct y as [|[|]|q]; auto; discriminate.
Qed.

(** X9.  In a complete run the six selections of a plotting loop split
    the Filtered Table: put one after the other they are a rearrangement of
    it, so every row is plotted under exactly one country; and each of the
    five loops showed the selection of every configured country. *)
Theorem country_selections_partition :
  exists F, table s df_filtered = Some F /\
    Permutation
      (concat (map (fun n => List.filter (fun row => text_eq n (location row)) F)
                   countries))
      F /\
    forall what n,
      In what ["total_cases"; "total_deaths"; "new_cases"; "death_rate";
               "total_vaccinations"] ->
      In n countries ->
      In (Display what (List.filter (fun row => text_eq n (location row)) F))
         (stdout s).
Proof.
  rewrite (run_ok _ _ _ file_present dates_parse). cbn [fst].
  rewrite final_df_filtered. eexists. split; [reflexivity|]. split.
  - apply selections_partition; [apply countries_distinct|].
    intros r Hin. apply in_map_iff in Hin as [c [<- Hc]].
    apply filter_In in Hc as [_ Hsel]. rewrite location_clean_row.
    now apply isin_In.
  - intros what n Hwhat Hn.
    assert (Hplot : In (Display what (country_rows parse_date csv n))
                       (plots parse_date csv what)).
    { unfold plots. apply in_map_iff. exists n. split; [reflexivity|exact Hn]. }
    unfold final, shown, shown_vaccination, shown_trends. cbn [stdout].
    change (List.filter (fun row => text_eq n (location row))
                        (filtered_rows parse_date csv))
      with (country_rows parse_date csv n).
    simpl in Hwhat.
    destruct Hwhat as [<-|[<-|[<-|[<-|[<-|[]]]]]];
      rewrite !in_app_iff; tauto.
Qed.

(** X10.  In a complete run the country filter and the cut at
    [latest_date] commute: the rows of the Global Latest Snapshot that
    belong to a configured country are, in order, the rows the Latest
    Snapshot was built from; each snapshot row has their location,
    [iso_code], date and every numeric column outside the seven key
    columns. *)
Theorem snapshot_within_global :
  exists L G, table s df_latest = Some L /\ table s df_global_latest = Some G /\
    Forall2 (fun g r =>
               location r = location g /\ iso_code r = iso_code g /\
               date r = date g /\
               forall k, ~ In k key_columns -> num r k = num g k)
            (List.filter (fun t => isin countries (location t)) G) L.
Proof.
  rewrite (run_ok _ _ _ file_present dates_parse). cbn [fst].
  rewrite final_df_latest, final_df_global_latest. do 2 eexists.
  split; [reflexivity|]. split; [reflexivity|].
  unfold global_rows, latest_rows. rewrite filter_map_comm.
  change (fun x => isin countries (location (dated_row parse_date x)))
    with selected.
  rewrite filter_comm. apply Forall2_map_same. intros c _.
  repeat (split; [reflexivity|]).
  intros k Hk. cbn [num pct_row set_pct_vaccinated].
  now rewrite num_clean_row_other.
Qed.

(** X11.  The cells after the cleaning cell leave the full Table, the
    Filtered Table and [latest_date] as the cleaning cell left them: the
    names keep their objects and the objects their rows.  The one object
    they change is the Latest Snapshot. *)
Theorem later_cells_frame :
  df s = df (fst (run_cleaning read_file parse_date)) /\
  df_filtered s = df_filtered (fst (run_cleaning read_file parse_date)) /\
  df_latest s = df_latest (fst (run_cleaning read_file parse_date)) /\
  latest_date s = latest_date (fst (run_cleaning read_file parse_date)) /\
  table s df = table (fst (run_cleaning read_file parse_date)) df /\
  table s df_filtered
  = table (fst (run_cleaning read_file parse_date)) df_filtered /\
  exists L, table s df_filtered = Some L /\
            forall r, In r L -> pct_vaccinated r = None.
Proof.
  rewrite (run_ok _ _ _ file_present dates_parse).
  rewrite (run_cleaning_ok _ _ _ file_present dates_parse). cbn [fst].
  repeat (split; [reflexivity|]).
  rewrite final_df_filtered. eexists. split; [reflexivity|].
  intros r Hin. apply in_map_iff in Hin as [c [<- _]]. reflexivity.
Qed.

End FurtherProperties.

(** ** The further properties on the sample files *)

Lemma latest_date_bounds_witness :
  one_file sample csv_path = Some sample /\
  forallb (date_parses iso_date) sample = true /\
  exists F d,
    table (fst (run (one_file sample) iso_date)) df_filtered = Some F /\
    latest_date (fst (run (one_file sample) iso_date)) = Some d /\
    forall r t, In r F -> stamp r = Some t ->
                exists m, d = Some m /\ (t <= m)%Z.
Proof.
  split; [reflexivity|]. split; [reflexivity|].
  destruct (latest_date_bounds (one_file sample) iso_date sample
              eq_refl eq_refl) as [F [L [d [HF [_ [Hd [H _]]]]]]].
  exists F, d. split; [exact HF|]. split; [exact Hd | exact H].
Defined.

Lemma snapshots_skip_missing_dates_witness :
  one_file sample_undated csv_path = Some sample_undated /\
  forallb (date_parses iso_date) sample_undated = true /\
  table (fst (run_cleaning (one_file sample_undated) iso_date)) df_latest
  = Some [] /\
  latest_date (fst (run_cleaning (one_file sample_undated) iso_date))
  = Some None.
Proof.
  split; [reflexivity|]. split; [reflexivity|].
  destruct (snapshots_skip_missing_dates (one_file sample_undated) iso_date
              sample_undated eq_refl eq_refl)
    as [F [L [HF [HL [_ [_ H]]]]]].
  assert (Hnone : forall r, In r F -> date r = Datetime None).
  { rewrite (run_cleaning_ok (one_file sample_undated) iso_date sample_undated
               eq_refl eq_refl) in HF.
    cbn [fst] in HF. rewrite cleaning_df_filtered in HF. injection HF as <-.
    intros r [<-|[]]. reflexivity. }
  destruct (H Hnone) as [Hlatest EL]. subst L.
  split; [exact HL | exact Hlatest].
Defined.

Lemma death_rate_range_witness :
  one_file sample csv_path = Some sample /\
  forallb (date_parses iso_date) sample = true /\
  exists F, table (fst (run (one_file sample) iso_date)) df_filtered = Some F /\
    forall r c d, In r F ->
      num r total_cases = Fin c -> num r total_deaths = Fin d ->
      (Q2Qc 0 < c)%Qc -> (Q2Qc 0 <= d)%Qc -> (d <= c)%Qc ->
      exists q, death_rate r = Some (Fin q)
                /\ (Q2Qc 0 <= q)%Qc /\ (q <= Q2Qc 1)%Qc.
Proof.
  split; [reflexivity|]. split; [reflexivity|].
  exact (death_rate_range (one_file sample) iso_date sample eq_refl eq_refl).
Defined.

Lemma pct_vaccinated_range_witness :
  one_file sample_vaccination csv_path = Some sample_vaccination /\
  forallb (date_parses iso_date) sample_vaccination = true /\
  exists L,
    table (fst (run (one_file sample_vaccination) iso_date)) df_latest = Some L /\
    forall r v p, In r L ->
      num r people_vaccinated = Fin v -> num r population = Fin p ->
      (Q2Qc 0 < p)%Qc -> (Q2Qc 0 <= v)%Qc -> (v <= p)%Qc ->
      exists q, pct_vaccinated r = Some (Fin q)
                /\ (Q2Qc 0 <= q)%Qc /\ (q <= Q2Qc 100)%Qc.
Proof.
  split; [reflexivity|]. split; [reflexivity|].
  exact (pct_vaccinated_range (one_file sample_vaccination) iso_date
           sample_vaccination eq_refl eq_refl).
Defined.

Lemma ranking_order_witness :
  one_file sample_vaccination csv_path = Some sample_vaccination /\
  forallb (date_parses iso_date) sample_vaccination = true /\
  exists B,
    barplot_data (stdout (fst (run (one_file sample_vaccination) iso_date)))
    = Some B /\
    forall l1 a l2 b l3 x y,
      B = (l1 ++ a :: l2 ++ b :: l3)%list ->
      pct_vaccinated a = Some x -> pct_vaccinated b = Some y ->
      (x = NaN -> y = NaN) /\
      (forall p q, x = Fin p -> y = Fin q -> (q <= p)%Qc).
Proof.
  split; [reflexivity|]. split; [reflexivity|].
  destruct (ranking_order (one_file sample_vaccination) iso_date
              sample_vaccination eq_refl eq_refl) as [B [HB H]].
  exists B. split; [exact HB|].
  intros l1 a l2 b l3 x y E Ha Hb.
  destruct (H l1 a l2 b l3 x y E Ha Hb) as [Hnan [Hfin _]].
  split; assumption.
Defined.

Lemma country_selections_partition_witness :
  one_file sample csv_path = Some sample /\
  forallb (date_parses iso_date) sample = true /\
  exists F, table (fst (run (one_file sample) iso_date)) df_filtered = Some F /\
    Permutation
      (concat (map (fun n => List.filter (fun row => text_eq n (location row)) F)
                   countries))
      F.
Proof.
  split; [reflexivity|]. split; [reflexivity|].
  destruct (country_selections_partition (one_file sample) iso_date sample
              eq_refl eq_refl) as [F [HF [H _]]].
  exists F. split; [exact HF | exact H].
Defined.

Lemma snapshot_within_global_witness :
  one_file sample csv_path = Some sample /\
  forallb (date_parses iso_date) sample = true /\
  exists L G,
    table (fst (run (one_file sample) iso_date)) df_latest = Some L /\
    table (fst (run (one_file sample) iso_date)) df_global_latest = Some G /\
    Forall2 (fun g r => location r = location g /\ date r = date g)
            (List.filter (fun t => isin countries (location t)) G) L.
Proof.
  split; [reflexivity|]. split; [reflexivity|].
  destruct (snapshot_within_global (one_file sample) iso_date sample
              eq_refl eq_refl) as [L [G [HL [HG H]]]].
  exists L, G. split; [exact HL|]. split; [exact HG|].
  revert H. apply Forall2_impl. intros g r [Hloc [_ [Hdate _]]].
  split; assumption.
Defined.

Lemma later_cells_frame_witness :
  one_file sample csv_path = Some sample /\
  forallb (date_parses iso_date) sample = true /\
  table (fst (run (one_file sample) iso_date)) df
  = table (fst (run_cleaning (one_file sample) iso_date)) df /\
  table (fst (run (one_file sample) iso_date)) df_filtered
  = table (fst (run_cleaning (one_file sample) iso_date)) df_filtered.
Proof.
  split; [reflexivity|]. split; [reflexivity|].
  destruct (later_cells_frame (one_file sample) iso_date sample
              eq_refl eq_refl) as [_ [_ [_ [_ [HT [HF _]]]]]].
  split; [exact HT | exact HF].
Defined.
